(** * tomoscan: the PSO fly-scan class [TomoScanPSO]

    A shallow embedding of [src/tomoscan/tomoscan_pso.py].

    - Python numbers: an [int] is a [Z]; a [float] is an exact rational [Q]
      (idealised arithmetic: no rounding of the binary representation, no
      infinities, no NaN).  True division raises [ZeroDivisionError] on a
      zero divisor, as Python does for ints and floats alike.  The step
      alignment of lines 305-315, where the rounding of the machine decides
      the count that is written, is modelled on IEEE binary64 numbers as
      well (module [Binary64]).
    - The object [self] is the record [TomoScanPSO]: its attributes, the
      control points [epics_pvs] (a [get] returns the last value [put]), and
      a chronological [trace] of everything the methods do on the outside
      (log records, gets, puts, sleeps).
    - Methods are computations in a state-and-exception monad; an exception
      keeps the state reached when it was raised.
    - The base class [TomoScan] is not part of the sources: what the methods
      call on it is the record [TomoScan] of inherited methods.
    - A module-level name is looked up in the module's namespace when the
      statement that mentions it runs.  Lines 9-10 bind [TomoScan] and [log]
      only; [injected] lists whatever else has been bound in the namespace
      (nothing, for the module as it stands). *)

From Stdlib Require Import ZArith QArith Qround Qabs List String Bool Lia Lqa.
From Stdlib Require Import DecimalString Floats.
Import ListNotations.

Set Warnings "-inexact-float".

Local Open Scope string_scope.
Local Open Scope list_scope.
Local Open Scope Z_scope.
Local Open Scope Q_scope.

(** ** Python primitives *)

Module Py.

(** [x < y] on rationals, as a boolean. *)
Definition ltb (x y : Q) : bool :=
  match x ?= y with Lt => true | _ => false end.

(** [round(x)] of a float: nearest integer, ties to the even one. *)
Definition round (x : Q) : Z :=
  let f := Qfloor x in
  match ((x - inject_Z f) ?= (1 # 2))%Q with
  | Lt => f
  | Gt => (f + 1)%Z
  | Eq => if Z.even f then f else (f + 1)%Z
  end.

(** [int(x)] of a float, and [%d] of a number: truncation toward zero. *)
Definition trunc (x : Q) : Z := Z.quot (Qnum x) (Z.pos (Qden x)).

(** [math.ceil]. *)
Definition ceil (x : Q) : Z := Qceiling x.

(** [int(s)] of a string: an optional minus sign and at least one decimal
    digit; anything else is read as a [ValueError].  (Python also accepts a
    plus sign, blanks around the number and underscores between digits.) *)
Definition int_of_string (s : string) : option Z :=
  option_map Z.of_int (NilZero.int_of_string s).

(** ['%d' % z]. *)
Definition fmt_d (z : Z) : string := NilZero.string_of_int (Z.to_int z).

End Py.

(** ** Values, events, exceptions *)

(** What a control point holds and what [put] is given. *)
Inductive value : Type :=
| VInt (z : Z)
| VFloat (q : Q)
| VStr (s : string).

(** The number a value stands for in arithmetic, in [float(v)] and under
    [%d]; a string has none. *)
Definition num_of (v : value) : option Q :=
  match v with
  | VInt z => Some (inject_Z z)
  | VFloat q => Some q
  | VStr _ => None
  end.

(** [int(v)]: identity on ints, truncation on floats, parsing on strings. *)
Definition int_of (v : value) : option Z :=
  match v with
  | VInt z => Some z
  | VFloat q => Some (Py.trunc q)
  | VStr s => Py.int_of_string s
  end.

Inductive level : Type := INFO | WARNING.

Inductive arg : Type :=
| AStr (s : string)
| AInt (z : Z)
| AFloat (q : Q).

(** What a method does on the outside, in the order it does it. *)
Inductive event : Type :=
| Log (lv : level) (fmt : string) (args : list arg)
| Get (pv : string) (as_string : bool)
| Put (pv : string) (v : value) (wait : bool) (timeout : option Q)
| Sleep (seconds : Q).

Inductive exn : Type :=
| NameError (name : string)
| ZeroDivisionError
| ValueError
| OverflowError
| TypeError
| AttributeError (name : string)
| Failure (msg : string).

(** ** The object *)

Record TomoScanPSO : Type := mkTomoScanPSO {
  epics_pvs : string -> value;
  rotation_start : Q;
  rotation_stop : Q;
  rotation_step : Q;
  num_angles : Z;
  motor_speed : Q;
  max_rotation_speed : Q;
  num_dark_fields : Z;
  num_flat_fields : Z;
  total_images : Z;
  trace : list event
}.

Definition with_trace (t : list event) (s : TomoScanPSO) : TomoScanPSO :=
  mkTomoScanPSO (epics_pvs s) (rotation_start s) (rotation_stop s)
    (rotation_step s) (num_angles s) (motor_speed s) (max_rotation_speed s)
    (num_dark_fields s) (num_flat_fields s) (total_images s) t.

Definition with_pvs (p : string -> value) (s : TomoScanPSO) : TomoScanPSO :=
  mkTomoScanPSO p (rotation_start s) (rotation_stop s)
    (rotation_step s) (num_angles s) (motor_speed s) (max_rotation_speed s)
    (num_dark_fields s) (num_flat_fields s) (total_images s) (trace s).

Definition with_rotation_step (q : Q) (s : TomoScanPSO) : TomoScanPSO :=
  mkTomoScanPSO (epics_pvs s) (rotation_start s) (rotation_stop s)
    q (num_angles s) (motor_speed s) (max_rotation_speed s)
    (num_dark_fields s) (num_flat_fields s) (total_images s) (trace s).

Definition with_rotation_stop (q : Q) (s : TomoScanPSO) : TomoScanPSO :=
  mkTomoScanPSO (epics_pvs s) (rotation_start s) q
    (rotation_step s) (num_angles s) (motor_speed s) (max_rotation_speed s)
    (num_dark_fields s) (num_flat_fields s) (total_images s) (trace s).

Definition with_motor_speed (q : Q) (s : TomoScanPSO) : TomoScanPSO :=
  mkTomoScanPSO (epics_pvs s) (rotation_start s) (rotation_stop s)
    (rotation_step s) (num_angles s) q (max_rotation_speed s)
    (num_dark_fields s) (num_flat_fields s) (total_images s) (trace s).

(** The control points after [put(v)] on [name]. *)
Definition store (name : string) (v : value) (p : string -> value)
  : string -> value :=
  fun k => if String.eqb k name then v else p k.

(** ** The monad of methods *)

Inductive outcome (A : Type) : Type :=
| Ok (a : A) (s : TomoScanPSO)
| Raise (e : exn) (s : TomoScanPSO).

Arguments Ok {A} a s.
Arguments Raise {A} e s.

Definition M (A : Type) : Type := TomoScanPSO -> outcome A.

Definition ret {A} (a : A) : M A := fun s => Ok a s.

Definition raise {A} (e : exn) : M A := fun s => Raise e s.

Definition bind {A B} (m : M A) (k : A -> M B) : M B :=
  fun s =>
    match m s with
    | Ok a s' => k a s'
    | Raise e s' => Raise e s'
    end.

Notation "x <- m ;; k" := (bind m (fun x => k))
  (at level 61, m at next level, right associativity).
Notation "m ;; k" := (bind m (fun _ => k))
  (at level 61, right associativity).

(** The state in which a call stopped, whether it returned or raised. *)
Definition final {A} (o : outcome A) : TomoScanPSO :=
  match o with
  | Ok _ s => s
  | Raise _ s => s
  end.

Definition returned {A} (o : outcome A) : bool :=
  match o with
  | Ok _ _ => true
  | Raise _ _ => false
  end.

Definition gets {A} (f : TomoScanPSO -> A) : M A := fun s => Ok (f s) s.

Definition modify (f : TomoScanPSO -> TomoScanPSO) : M unit :=
  fun s => Ok tt (f s).

Definition emit (e : event) : M unit :=
  modify (fun s => with_trace (trace s ++ [e]) s).

(** [x / y]. *)
Definition py_div (x y : Q) : M Q :=
  if Qeq_bool y 0 then raise ZeroDivisionError else ret (x / y).

(** An option read as a value or as the given exception. *)
Definition expect {A} (e : exn) (o : option A) : M A :=
  match o with
  | Some a => ret a
  | None => raise e
  end.

Definition log_info (fmt : string) (args : list arg) : M unit :=
  emit (Log INFO fmt args).

Definition log_warning (fmt : string) (args : list arg) : M unit :=
  emit (Log WARNING fmt args).

(** [self.epics_pvs[name].put(v, wait=..., timeout=...)]. *)
Definition pv_put (name : string) (v : value) (wait : bool)
    (timeout : option Q) : M unit :=
  emit (Put name v wait timeout) ;;
  modify (fun s => with_pvs (store name v (epics_pvs s)) s).

(** [self.epics_pvs[name].get()]. *)
Definition pv_get (name : string) : M value :=
  emit (Get name false) ;;
  gets (fun s => epics_pvs s name).

(** ** The module namespace *)

(** Names bound by [from tomoscan import TomoScan] and
    [from tomoscan import log]. *)
Definition module_globals : list string := ["TomoScan"; "log"].

Definition bound (injected : list string) (name : string) : bool :=
  existsb (String.eqb name) (module_globals ++ injected).

(** ** The base class *)

(** What [TomoScanPSO] calls on its base class [TomoScan]: the overridden
    methods reached through [super()], and the inherited ones reached through
    [self].  [compute_positions] is among the latter: the class itself defines
    [compute_positions_PSO] only. *)
Record TomoScan : Type := mkTomoScan {
  super_begin_scan : M unit;
  super_end_scan : M unit;
  super_collect_projections : M unit;
  super_collect_dark_fields : M unit;
  super_collect_flat_fields : M unit;
  compute_frame_time : M Q;
  wait_camera_done : Q -> M unit;
  save_configuration : string -> M unit;
  move_sample_in : M unit;
  compute_positions : M unit
}.

(** ** Arithmetic of the planner and of the pulse window *)

(** Line 302: the distance needed to accelerate. *)
Definition accel_dist (motor_accl_time motor_speed : Q) : Q :=
  motor_accl_time / 2 * motor_speed.

(** Line 305. *)
Definition encoder_multiply (pulses_per_rotation : Q) : Q :=
  pulses_per_rotation / 360.

(** Line 306. *)
Definition raw_delta_encoder_counts (rotation_step pulses_per_rotation : Q) : Q :=
  rotation_step * encoder_multiply pulses_per_rotation.

(** Line 307, on the exact product.  The product that the machine rounds
    to binary64 can fall on the other side of a tie: see
    [Binary64.align_step]. *)
Definition delta_encoder_counts (rotation_step pulses_per_rotation : Q) : Z :=
  Py.round (raw_delta_encoder_counts rotation_step pulses_per_rotation).

(** Line 308: the test that guards the three warnings, on the exact
    difference and against the exact 1/10000 (in binary64:
    [Binary64.needs_warning]). *)
Definition needs_warning (rotation_step pulses_per_rotation : Q) : bool :=
  Py.ltb (1 # 10000)
    (Qabs (raw_delta_encoder_counts rotation_step pulses_per_rotation
           - inject_Z (delta_encoder_counts rotation_step pulses_per_rotation))).

(** Line 314: the step that is an integer number of encoder counts. *)
Definition corrected_step (rotation_step pulses_per_rotation : Q) : Q :=
  inject_Z (delta_encoder_counts rotation_step pulses_per_rotation)
  / encoder_multiply pulses_per_rotation.

(** Line 319. *)
Definition taxi_dist (accel_dist rotation_step : Q) : Q :=
  (inject_Z (Py.ceil (accel_dist / rotation_step)) + 0.5) * rotation_step.

(** Line 287. *)
Definition user_direction_of (rotation_start rotation_stop : Q) : Z :=
  if Py.ltb rotation_start rotation_stop then 1%Z else (-1)%Z.

(** Line 252. *)
Definition range_start (spacing : Q) (overall_sense : Z) : Z :=
  (- Py.round (spacing / 2) * overall_sense)%Z.

(** Line 253. *)
Definition range_length (spacing : Q) (num_angles : Z) : Q :=
  spacing * inject_Z num_angles.

(** Lines 255-260: [(window_start, window_end)]. *)
Definition window (range_start : Z) (range_length : Q) (overall_sense : Z)
  : Q * Q :=
  if (0 <? overall_sense)%Z
  then (inject_Z range_start, inject_Z range_start + range_length)
  else (inject_Z range_start - range_length, inject_Z range_start).

(** Line 261: the two numbers the [%d,%d] of the range command prints. *)
Definition programmed_window (w : Q * Q) : Z * Z :=
  (Py.trunc (fst w - 5), Py.trunc (snd w + 5)).

(** ** The methods of [TomoScanPSO] *)

Section Methods.

(** Names bound in the module namespace besides those of lines 9-10. *)
Variable injected : list string.
(** The base class. *)
Variable base : TomoScan.
(** The text pyepics gives for a value under [get(as_string=True)]. *)
Variable char_value : value -> string.
(** What [os.path.splitext] computes. *)
Variable splitext : string -> string * string.

(** Loading a module-level name. *)
Definition global (name : string) : M unit :=
  if bound injected name then ret tt else raise (NameError name).

(** [time.sleep(seconds)]. *)
Definition sleep (seconds : Q) : M unit :=
  global "time" ;; emit (Sleep seconds).

(** [self.epics_pvs[name].get(as_string=True)]. *)
Definition pv_get_str (name : string) : M string :=
  emit (Get name true) ;;
  gets (fun s => char_value (epics_pvs s name)).

(** [asynRec.put(cmd, wait=True, timeout=10.0)]. *)
Definition asyn_put (cmd : string) : M unit :=
  pv_put "PSOAsyn" (VStr cmd) true (Some 10.0).

(** Lines 27-63. *)
Definition set_trigger_mode (trigger_mode : string) (num_images : Z)
  : M unit :=
  log_info "set trigger mode: %s" [AStr trigger_mode] ;;
  pv_put "CamAcquire" (VStr "Done") true None ;;
  if String.eqb trigger_mode "FreeRun" then
    pv_put "CamImageMode" (VStr "Continuous") true None ;;
    pv_put "CamTriggerMode" (VStr "Off") true None ;;
    pv_put "CamAcquire" (VStr "Acquire") false None
  else if String.eqb trigger_mode "Internal" then
    pv_put "CamTriggerMode" (VStr "Off") true None ;;
    pv_put "CamImageMode" (VStr "Multiple") false None ;;
    pv_put "CamNumImages" (VInt num_images) true None
  else
    pv_put "CamTriggerMode" (VStr "Off") true None ;;
    cam_trig_source <- pv_get_str "ExternalTriggerSource" ;;
    pv_put "CamTriggerSource" (VStr cam_trig_source) true None ;;
    pv_put "CamTriggerOverlap" (VInt 1) true None ;;
    pv_put "CamExposureMode" (VStr "Timed") true None ;;
    pv_put "CamImageMode" (VStr "Multiple") false None ;;
    pv_put "CamArrayCallbacks" (VStr "Enable") false None ;;
    pv_put "CamFrameRateEnable" (VInt 0) false None ;;
    n <- gets num_angles ;;
    pv_put "CamNumImages" (VInt n) true None ;;
    pv_put "CamTriggerMode" (VStr "On") true None.

(** Lines 65-82. *)
Definition collect_static_frames (num_frames : Z) : M unit :=
  log_info "collect static frames: %d" [AInt num_frames] ;;
  set_trigger_mode "Internal" num_frames ;;
  pv_put "CamAcquire" (VStr "Acquire") false None ;;
  sleep 0.5 ;;
  frame_time <- compute_frame_time base ;;
  let collection_time := frame_time * inject_Z num_frames in
  wait_camera_done base (collection_time + 5.0).

(** Lines 84-92. *)
Definition collect_dark_fields : M unit :=
  log_info "collect dark fields" [] ;;
  super_collect_dark_fields base ;;
  n <- gets num_dark_fields ;;
  collect_static_frames n.

(** Lines 95-102. *)
Definition collect_flat_fields : M unit :=
  log_info "collect flat fields" [] ;;
  super_collect_flat_fields base ;;
  n <- gets num_flat_fields ;;
  collect_static_frames n.

(** Lines 277-289: [(overall_sense, user_direction)]. *)
Definition _compute_senses : M (Z * Z) :=
  let encoder_dir := (-1)%Z in
  v <- pv_get "RotationDirection" ;;
  d <- expect ValueError (int_of v) ;;
  let motor_dir := (1 - d * 2)%Z in
  start <- gets rotation_start ;;
  stop <- gets rotation_stop ;;
  let user_direction := user_direction_of start stop in
  ret ((user_direction * motor_dir * encoder_dir)%Z, user_direction).

(** Lines 213-264. *)
Definition program_PSO : M unit :=
  senses <- _compute_senses ;;
  let overall_sense := fst senses in
  pso_axis <- pv_get_str "PSOAxisName" ;;
  input_text <- pv_get_str "PSOEncoderInput" ;;
  pso_input <- expect ValueError (Py.int_of_string input_text) ;;
  vmax <- gets max_rotation_speed ;;
  pv_put "RotationSpeed" (VFloat vmax) false None ;;
  start <- gets rotation_start ;;
  pv_put "Rotation" (VFloat start) true None ;;
  speed <- gets motor_speed ;;
  pv_put "RotationSpeed" (VFloat speed) false None ;;
  asyn_put ("PSOCONTROL " ++ pso_axis ++ " RESET") ;;
  sleep 0.05 ;;
  asyn_put ("PSOOUTPUT " ++ pso_axis ++ " CONTROL 1") ;;
  sleep 0.05 ;;
  asyn_put ("PSOPULSE " ++ pso_axis ++ " TIME 20,10") ;;
  sleep 0.05 ;;
  asyn_put ("PSOOUTPUT " ++ pso_axis ++ " PULSE WINDOW MASK") ;;
  sleep 0.05 ;;
  asyn_put ("PSOTRACK " ++ pso_axis ++ " INPUT " ++ Py.fmt_d pso_input) ;;
  sleep 0.05 ;;
  v <- pv_get "EncoderPulsesPerStep" ;;
  spacing <- expect TypeError (num_of v) ;;
  asyn_put ("PSODISTANCE " ++ pso_axis ++ " FIXED "
            ++ Py.fmt_d (Py.trunc spacing)) ;;
  sleep 0.05 ;;
  asyn_put ("PSOWINDOW " ++ pso_axis ++ " 1 INPUT " ++ Py.fmt_d pso_input) ;;
  sleep 0.05 ;;
  v1 <- pv_get "EncoderPulsesPerStep" ;;
  x1 <- expect TypeError (num_of v1) ;;
  let rs := range_start x1 overall_sense in
  v2 <- pv_get "EncoderPulsesPerStep" ;;
  x2 <- expect TypeError (num_of v2) ;;
  n <- gets num_angles ;;
  let rl := range_length x2 n in
  let w := programmed_window (window rs rl overall_sense) in
  asyn_put ("PSOWINDOW " ++ pso_axis ++ " 1 RANGE "
            ++ Py.fmt_d (fst w) ++ "," ++ Py.fmt_d (snd w)) ;;
  sleep 0.05 ;;
  asyn_put ("PSOCONTROL " ++ pso_axis ++ " ARM").

(** Lines 266-275. *)
Definition cleanup_PSO : M unit :=
  log_info "Cleaning up PSO programming and setting to retrace speed." [] ;;
  pso_axis <- pv_get_str "PSOAxisName" ;;
  _ <- pv_get_str "PSOEncoderInput" ;;
  pv_put "PSOAsyn" (VStr ("PSOWINDOW " ++ pso_axis ++ " OFF")) true None ;;
  pv_put "PSOAsyn" (VStr ("PSOCONTROL " ++ pso_axis ++ " OFF")) true None.

(** Lines 291-325. *)
Definition compute_positions_PSO : M unit :=
  senses <- _compute_senses ;;
  let user_direction := snd senses in
  v <- pv_get "RotationAccelTime" ;;
  motor_accl_time <- expect ValueError (num_of v) ;;
  speed <- gets motor_speed ;;
  let accel := accel_dist motor_accl_time speed in
  v <- pv_get "PSOPulsesPerRotation" ;;
  ppr <- expect ValueError (num_of v) ;;
  step <- gets rotation_step ;;
  let raw := raw_delta_encoder_counts step ppr in
  let counts := delta_encoder_counts step ppr in
  (if needs_warning step ppr
   then
     log_warning
       "  *** *** *** Requested scan would have used a non-integer number of encoder pulses."
       [] ;;
     log_warning
       "  *** *** *** Calculated # of encoder pulses per step = {0:9.4f}"
       [AFloat raw] ;;
     log_warning "  *** *** *** Instead, using {0:d}" [AInt counts]
   else ret tt) ;;
  pv_put "EncoderPulsesPerStep" (VInt counts) false None ;;
  step' <- py_div (inject_Z counts) (encoder_multiply ppr) ;;
  modify (with_rotation_step step') ;;
  pv_put "RotationStep" (VFloat step') false None ;;
  global "math" ;;
  steps <- py_div accel step' ;;
  let taxi := (inject_Z (Py.ceil steps) + 0.5) * step' in
  start <- gets rotation_start ;;
  pv_put "startTaxi"
    (VFloat (start - taxi * inject_Z user_direction)) false None ;;
  stop <- gets rotation_stop ;;
  pv_put "endTaxi"
    (VFloat (stop + taxi * inject_Z user_direction)) false None ;;
  n <- gets num_angles ;;
  modify (with_rotation_stop
            (start + inject_Z (n - 1) * step' * inject_Z user_direction)).

(** Lines 104-128. *)
Definition begin_scan : M unit :=
  log_info "begin scan" [] ;;
  super_begin_scan base ;;
  time_per_angle <- compute_frame_time base ;;
  step <- gets rotation_step ;;
  speed <- py_div step time_per_angle ;;
  modify (with_motor_speed speed) ;;
  sleep 0.1 ;;
  compute_positions base ;;
  program_PSO ;;
  total <- gets total_images ;;
  pv_put "FPNumCapture" (VInt total) true None ;;
  pv_put "FPCapture" (VStr "Capture") false None.

(** Lines 131-165. *)
Definition end_scan : M unit :=
  log_info "end scan" [] ;;
  full_file_name <- pv_get_str "FPFullFileName" ;;
  log_info "data save location: %s" [AStr full_file_name] ;;
  global "os" ;;
  let config_file_root := fst (splitext full_file_name) in
  save_configuration base (config_file_root ++ ".config") ;;
  set_trigger_mode "FreeRun" 1 ;;
  vmax <- gets max_rotation_speed ;;
  pv_put "RotationSpeed" (VFloat vmax) false None ;;
  cleanup_PSO ;;
  move_sample_in base ;;
  super_end_scan base.

(** Lines 167-211. *)
Definition collect_projections : M unit :=
  log_info "collect projections" [] ;;
  super_collect_projections base ;;
  log_info "taxi before starting capture" [] ;;
  v <- pv_get "startTaxi" ;;
  pv_put "Rotation" v true None ;;
  n <- gets num_angles ;;
  set_trigger_mode "PSOExternal" n ;;
  pv_put "CamAcquire" (VStr "Acquire") false None ;;
  log_info "start fly scan" [] ;;
  v <- pv_get "endTaxi" ;;
  pv_put "Rotation" v false None ;;
  time_per_angle <- compute_frame_time base ;;
  n <- gets num_angles ;;
  let collection_time := inject_Z n * time_per_angle in
  wait_camera_done base (collection_time + 60).

End Methods.

(** ** A test bench

    A base class whose methods return at once and whose frame time is
    given, and a set of control points: 36000 pulses per rotation, no
    acceleration time, axis X on encoder input 3. *)

Module Bench.

Definition base (frame_time : Q) : TomoScan :=
  mkTomoScan (ret tt) (ret tt) (ret tt) (ret tt) (ret tt) (ret frame_time)
    (fun _ => ret tt) (fun _ => ret tt) (ret tt) (ret tt).

Definition char_value (v : value) : string :=
  match v with
  | VStr s => s
  | VInt z => Py.fmt_d z
  | VFloat _ => ""
  end.

Definition pvs (pulses_per_rotation : Q) : string -> value :=
  fun name =>
    if String.eqb name "PSOPulsesPerRotation" then VFloat pulses_per_rotation
    else if String.eqb name "RotationAccelTime" then VFloat 0
    else if String.eqb name "RotationDirection" then VInt 0
    else if String.eqb name "PSOAxisName" then VStr "X"
    else if String.eqb name "PSOEncoderInput" then VStr "3"
    else if String.eqb name "EncoderPulsesPerStep" then VInt 25
    else if String.eqb name "ExternalTriggerSource" then VStr "Line2"
    else if String.eqb name "FPFullFileName" then VStr "/data/scan_001.h5"
    else VInt 0.

(** 720 angles from 0 to 180 degrees at the given step and motor speed. *)
Definition scan (step speed : Q) : TomoScanPSO :=
  mkTomoScanPSO (pvs 36000) 0 180 step 720 speed 50 20 20 760 [].

(** The same scan with no pulses-per-rotation configured. *)
Definition unconfigured : TomoScanPSO :=
  mkTomoScanPSO (pvs 0) 0 180 0.25 720 2.5 50 20 20 760 [].

End Bench.

(** ** States a call of the planner passes through *)

(** The three log records of lines 309-311. *)
Definition rounding_warnings (raw : Q) (counts : Z) : list event :=
  [ Log WARNING
      "  *** *** *** Requested scan would have used a non-integer number of encoder pulses."
      [];
    Log WARNING
      "  *** *** *** Calculated # of encoder pulses per step = {0:9.4f}"
      [AFloat raw];
    Log WARNING "  *** *** *** Instead, using {0:d}" [AInt counts] ].

(** What lines 299-315 do on the outside. *)
Definition alignment_events (step ppr : Q) : list event :=
  [ Get "RotationDirection" false;
    Get "RotationAccelTime" false;
    Get "PSOPulsesPerRotation" false ]
  ++ (if needs_warning step ppr
      then rounding_warnings (raw_delta_encoder_counts step ppr)
             (delta_encoder_counts step ppr)
      else [])
  ++ [ Put "EncoderPulsesPerStep" (VInt (delta_encoder_counts step ppr))
         false None;
       Put "RotationStep" (VFloat (corrected_step step ppr)) false None ].

(** The object after line 315. *)
Definition aligned (ppr : Q) (s : TomoScanPSO) : TomoScanPSO :=
  let step := rotation_step s in
  mkTomoScanPSO
    (store "RotationStep" (VFloat (corrected_step step ppr))
       (store "EncoderPulsesPerStep"
          (VInt (delta_encoder_counts step ppr)) (epics_pvs s)))
    (rotation_start s) (rotation_stop s) (corrected_step step ppr)
    (num_angles s) (motor_speed s) (max_rotation_speed s)
    (num_dark_fields s) (num_flat_fields s) (total_images s)
    (trace s ++ alignment_events step ppr).

(** The object after line 325. *)
Definition planned (ppr accl : Q) (s : TomoScanPSO) : TomoScanPSO :=
  let step' := corrected_step (rotation_step s) ppr in
  let ud := inject_Z (user_direction_of (rotation_start s) (rotation_stop s)) in
  let taxi := taxi_dist (accel_dist accl (motor_speed s)) step' in
  mkTomoScanPSO
    (store "endTaxi" (VFloat (rotation_stop s + taxi * ud))
       (store "startTaxi" (VFloat (rotation_start s - taxi * ud))
          (epics_pvs (aligned ppr s))))
    (rotation_start s)
    (rotation_start s + inject_Z (num_angles s - 1) * step' * ud)
    step' (num_angles s) (motor_speed s) (max_rotation_speed s)
    (num_dark_fields s) (num_flat_fields s) (total_images s)
    (trace (aligned ppr s)
     ++ [ Put "startTaxi" (VFloat (rotation_start s - taxi * ud)) false None;
          Put "endTaxi" (VFloat (rotation_stop s + taxi * ud)) false None ]).

(** ** The step arithmetic in binary64

    Lines 305-315 on IEEE binary64 numbers, which is what Python computes
    with: the counts per degree, the raw count, [round], the warning test
    and the corrected step, each rounded as the machine rounds it, and the
    exceptions that [round], the conversion of the count and the division
    raise.  The exact arithmetic of the rest of the development is checked
    against it on the worked examples. *)

Module Binary64.

(** The rational number a finite float is; an infinity or a NaN is none. *)
Definition exact (x : float) : option Q :=
  match Prim2SF x with
  | S754_zero _ => Some 0
  | S754_finite s m e =>
      Some ((if s then - (1) else 1) * inject_Z (Z.pos m) * 2 ^ e)
  | S754_infinity _ => None
  | S754_nan => None
  end.

(** [round(x)] of line 307: the integer nearest to the exact value, ties to
    the even one; [OverflowError] on an infinity, [ValueError] on a NaN. *)
Definition round (x : float) : exn + Z :=
  match exact x with
  | Some q => inr (Py.round q)
  | None => inl (if is_nan x then ValueError else OverflowError)
  end.


(** Line 305. *)
Definition encoder_multiply (pulses_per_rotation : float) : float :=
  (pulses_per_rotation / 360)%float.

(** Line 306. *)
Definition raw_delta_encoder_counts (rotation_step pulses_per_rotation : float)
  : float :=
  (rotation_step * encoder_multiply pulses_per_rotation)%float.

(** Line 308, for the rounded count [counts]. *)
Definition needs_warning (raw counts : float) : bool :=
  (1e-4 <? abs (raw - counts))%float.

(** Line 314, for the rounded count [counts]. *)
Definition corrected_step (counts pulses_per_rotation : float) : float :=
  (counts / encoder_multiply pulses_per_rotation)%float.



End Binary64.

(** A magnitude well inside the binary64 range, which ends just below
    2^1024. *)
Definition binary64_range : Q := inject_Z (2 ^ 1000).

(** ** Symbolic execution of a method *)

Ltac run :=
  cbv beta iota zeta delta
    [bind ret raise gets modify emit pv_put pv_get pv_get_str asyn_put
     log_info log_warning expect final returned
     with_trace with_pvs with_rotation_step with_rotation_stop
     with_motor_speed
     epics_pvs rotation_start rotation_stop rotation_step num_angles
     motor_speed max_rotation_speed num_dark_fields num_flat_fields
     total_images trace fst snd].

(** The monad alone, leaving states as they are written. *)
Ltac mrun :=
  cbv beta iota delta
    [bind ret raise gets modify emit log_info log_warning expect].

(** Comparisons of control-point names, decided. *)
Ltac names :=
  repeat match goal with
         | |- context [String.eqb ?a ?b] =>
             let r := eval vm_compute in (String.eqb a b) in
             change (String.eqb a b) with r
         end;
  cbv iota.

Ltac flat := repeat rewrite <- app_assoc; cbn [app].

(** ** Facts about the Python primitives *)

(** [Py.ltb] decides [<]. *)
Lemma ltb_lt (x y : Q) : Py.ltb x y = true <-> x < y.
Proof.
  unfold Py.ltb. rewrite Qlt_alt.
  destruct (x ?= y); split; congruence.
Qed.

(** Its negation is [>=]. *)
Lemma ltb_ge (x y : Q) : Py.ltb x y = false <-> y <= x.
Proof.
  rewrite <- Bool.not_true_iff_false, ltb_lt. split.
  - apply Qnot_lt_le.
  - apply Qle_not_lt.
Qed.

(** [round] is within half a unit of its argument. *)
Lemma round_nearest (x : Q) : Qabs (x - inject_Z (Py.round x)) <= 1 # 2.
Proof.
  unfold Py.round.
  pose proof (Qfloor_le x) as Hlo. pose proof (Qlt_floor x) as Hhi.
  set (f := Qfloor x) in *.
  rewrite inject_Z_plus in Hhi. change (inject_Z 1) with 1 in Hhi.
  destruct ((x - inject_Z f) ?= (1 # 2)) eqn:E.
  - apply Qeq_alt in E.
    destruct (Z.even f); [ | rewrite inject_Z_plus; change (inject_Z 1) with 1 ];
      apply Qabs_Qle_condition; split; lra.
  - apply Qlt_alt in E. apply Qabs_Qle_condition; split; lra.
  - apply Qgt_alt in E. rewrite inject_Z_plus. change (inject_Z 1) with 1.
    apply Qabs_Qle_condition; split; lra.
Qed.

(** [trunc] is within one unit of its argument. *)
Lemma trunc_near (x : Q) :
  x - 1 < inject_Z (Py.trunc x) /\ inject_Z (Py.trunc x) < x + 1.
Proof.
  destruct x as [n d]. unfold Py.trunc. cbn [Qnum Qden].
  pose proof (Z.quot_rem' n (Z.pos d)) as Hqr.
  pose proof (Z.rem_bound_abs n (Z.pos d)) as Hb.
  assert (Hd : (0 < Z.pos d)%Z) by lia.
  set (q := Z.quot n (Z.pos d)) in *. set (r := Z.rem n (Z.pos d)) in *.
  assert (Hr : (- Z.pos d < r < Z.pos d)%Z) by lia.
  unfold Qlt, Qminus, Qplus, Qopp, inject_Z. cbn [Qnum Qden].
  split; nia.
Qed.

(** ** The planner, statement by statement *)

(** The counts per degree vanish exactly when the pulses per rotation do. *)
Lemma encoder_multiply_zero (ppr : Q) :
  Qeq_bool (encoder_multiply ppr) 0 = false <-> ~ ppr == 0.
Proof.
  unfold encoder_multiply. rewrite <- Bool.not_true_iff_false, Qeq_bool_iff.
  split; intros H E; apply H.
  - rewrite E. reflexivity.
  - assert (ppr == ppr / 360 * 360) as -> by (field).
    rewrite E. reflexivity.
Qed.

(** Where [math] is not bound, the planner stops at line 319 in the state
    reached after line 315. *)
Lemma planner_stops_at_math (injected : list string) (s : TomoScanPSO)
    (d : Z) (accl ppr : Q) :
  int_of (epics_pvs s "RotationDirection") = Some d ->
  num_of (epics_pvs s "RotationAccelTime") = Some accl ->
  num_of (epics_pvs s "PSOPulsesPerRotation") = Some ppr ->
  ~ ppr == 0 ->
  bound injected "math" = false ->
  compute_positions_PSO injected s = Raise (NameError "math") (aligned ppr s).
Proof.
  intros Hd Ha Hp Hz Hm. apply encoder_multiply_zero in Hz.
  destruct s as [pvs start stop step n speed vmax nd nf tot tr].
  cbn [epics_pvs] in Hd, Ha, Hp.
  unfold compute_positions_PSO, _compute_senses, py_div, global, aligned, alignment_events,
    rounding_warnings.
  run. rewrite Hd. run. rewrite Ha. run. rewrite Hp. run.
  destruct (needs_warning step ppr); run; rewrite Hz; run; rewrite Hm; run;
    flat; reflexivity.
Qed.

(** Where [math] is bound, the planner raises at the division of line 319
    when the corrected step is zero, and returns otherwise. *)
Lemma planner_completes (injected : list string) (s : TomoScanPSO)
    (d : Z) (accl ppr : Q) :
  int_of (epics_pvs s "RotationDirection") = Some d ->
  num_of (epics_pvs s "RotationAccelTime") = Some accl ->
  num_of (epics_pvs s "PSOPulsesPerRotation") = Some ppr ->
  ~ ppr == 0 ->
  bound injected "math" = true ->
  compute_positions_PSO injected s =
    if Qeq_bool (corrected_step (rotation_step s) ppr) 0
    then Raise ZeroDivisionError (aligned ppr s)
    else Ok tt (planned ppr accl s).
Proof.
  intros Hd Ha Hp Hz Hm. apply encoder_multiply_zero in Hz.
  destruct s as [pvs start stop step n speed vmax nd nf tot tr].
  cbn [epics_pvs] in Hd, Ha, Hp.
  unfold compute_positions_PSO, _compute_senses, py_div, global, planned,
    aligned, alignment_events, rounding_warnings, taxi_dist.
  run. rewrite Hd. run. rewrite Ha. run. rewrite Hp. run.
  destruct (needs_warning step ppr); run; rewrite Hz; run; rewrite Hm; run;
    unfold corrected_step;
    destruct (Qeq_bool (inject_Z (delta_encoder_counts step ppr)
                        / encoder_multiply ppr) 0);
    run; flat; reflexivity.
Qed.

(** With zero pulses per rotation the division of line 314 raises. *)
Lemma planner_zero_pulses (injected : list string) (s : TomoScanPSO)
    (d : Z) (accl ppr : Q) :
  int_of (epics_pvs s "RotationDirection") = Some d ->
  num_of (epics_pvs s "RotationAccelTime") = Some accl ->
  num_of (epics_pvs s "PSOPulsesPerRotation") = Some ppr ->
  ppr == 0 ->
  exists s', compute_positions_PSO injected s = Raise ZeroDivisionError s'.
Proof.
  intros Hd Ha Hp Hz.
  assert (Hq : Qeq_bool (encoder_multiply ppr) 0 = true).
  { apply Qeq_bool_iff. unfold encoder_multiply. rewrite Hz. reflexivity. }
  destruct s as [pvs start stop step n speed vmax nd nf tot tr].
  cbn [epics_pvs] in Hd, Ha, Hp.
  unfold compute_positions_PSO, _compute_senses, py_div, global.
  run. rewrite Hd. run. rewrite Ha. run. rewrite Hp. run.
  destruct (needs_warning step ppr); run; rewrite Hq; run; eexists; reflexivity.
Qed.

(** As the module stands the planner never returns, and writes at most
    the count and the corrected step. *)
Lemma planner_never_returns (s : TomoScanPSO) :
  exists e s' evs,
    compute_positions_PSO [] s = Raise e s' /\
    trace s' = trace s ++ evs /\
    epics_pvs s' "startTaxi" = epics_pvs s "startTaxi" /\
    epics_pvs s' "endTaxi" = epics_pvs s "endTaxi" /\
    (forall pv v w t, In (Put pv v w t) evs ->
       pv = "EncoderPulsesPerStep" \/ pv = "RotationStep").
Proof.
  destruct s as [pvs start stop step n speed vmax nd nf tot tr].
  unfold compute_positions_PSO, _compute_senses, py_div, global.
  run.
  destruct (int_of (pvs "RotationDirection")); run;
    [ destruct (num_of (pvs "RotationAccelTime")); run;
      [ destruct (num_of (pvs "PSOPulsesPerRotation")) as [ppr|]; run;
        [ destruct (needs_warning step ppr); run;
          destruct (Qeq_bool (encoder_multiply ppr) 0); run | ] | ] | ];
    do 3 eexists; (split; [ reflexivity | ]); run; flat;
    (split; [ reflexivity | ]);
    (split; [ reflexivity | ]); (split; [ reflexivity | ]);
    intros pv v w t Hin; cbn in Hin;
    repeat (destruct Hin as [Hin | Hin]; [ inversion Hin; subst; auto | ]);
    try contradiction.
Qed.

(** The state in which the planner stops is one of the two. *)
Lemma planner_final (injected : list string) (s : TomoScanPSO)
    (d : Z) (accl ppr : Q) :
  int_of (epics_pvs s "RotationDirection") = Some d ->
  num_of (epics_pvs s "RotationAccelTime") = Some accl ->
  num_of (epics_pvs s "PSOPulsesPerRotation") = Some ppr ->
  ~ ppr == 0 ->
  final (compute_positions_PSO injected s) = aligned ppr s \/
  final (compute_positions_PSO injected s) = planned ppr accl s.
Proof.
  intros Hd Ha Hp Hz.
  destruct (bound injected "math") eqn:Hm.
  - rewrite (planner_completes injected s d accl ppr Hd Ha Hp Hz Hm).
    destruct (Qeq_bool (corrected_step (rotation_step s) ppr) 0); auto.
  - rewrite (planner_stops_at_math injected s d accl ppr Hd Ha Hp Hz Hm). auto.
Qed.

(** The events of lines 299-315 hold a warning exactly when the rounding
    error exceeds 1e-4. *)
Lemma warnings_iff (step ppr : Q) :
  (exists fmt args,
     In (Log WARNING fmt args) (alignment_events step ppr)) <->
  1 # 10000 < Qabs (raw_delta_encoder_counts step ppr
                    - inject_Z (delta_encoder_counts step ppr)).
Proof.
  unfold alignment_events.
  destruct (needs_warning step ppr) eqn:E; unfold needs_warning in E.
  - apply ltb_lt in E. split; [ intros _; exact E | intros _ ].
    do 2 eexists. cbn. right. right. right. left. reflexivity.
  - apply ltb_ge in E. split.
    + intros (fmt & args & Hin). cbn in Hin.
      repeat (destruct Hin as [Hin | Hin]; [ discriminate Hin | ]).
      contradiction.
    + intros H. exfalso. apply (Qlt_not_le _ _ H). exact E.
Qed.

(** ** The planner: [compute_positions_PSO] *)




(** C1, as amended.  Where the call reaches lines 319-325, the taxi-stop
    position [endTaxi] is derived from the [rotation_stop] held on entry,
    and [rotation_stop] is recomputed from the corrected step only
    afterwards; [endTaxi] equals the recomputed stop plus the signed taxi
    distance exactly when the stop on entry already was the recomputed
    one. *)
Theorem taxi_stop_uses_the_stop_on_entry :
  forall (injected : list string) (s : TomoScanPSO) (d : Z) (accl ppr : Q),
    int_of (epics_pvs s "RotationDirection") = Some d ->
    num_of (epics_pvs s "RotationAccelTime") = Some accl ->
    num_of (epics_pvs s "PSOPulsesPerRotation") = Some ppr ->
    ~ ppr == 0 ->
    ~ corrected_step (rotation_step s) ppr == 0 ->
    bound injected "math" = true ->
    let ud := inject_Z (user_direction_of (rotation_start s) (rotation_stop s)) in
    let step' := corrected_step (rotation_step s) ppr in
    let taxi := taxi_dist (accel_dist accl (motor_speed s)) step' in
    exists s' : TomoScanPSO,
      compute_positions_PSO injected s = Ok tt s' /\
      epics_pvs s' "endTaxi" = VFloat (rotation_stop s + taxi * ud) /\
      rotation_stop s' =
        rotation_start s + inject_Z (num_angles s - 1) * step' * ud /\
      (rotation_stop s + taxi * ud == rotation_stop s' + taxi * ud <->
       rotation_stop s == rotation_stop s').
Proof.
  intros injected s d accl ppr Hd Ha Hp Hz Hs Hm ud step' taxi.
  exists (planned ppr accl s).
  rewrite (planner_completes injected s d accl ppr Hd Ha Hp Hz Hm).
  fold step'. destruct (Qeq_bool step' 0) eqn:E.
  - apply Qeq_bool_iff in E. contradiction.
  - split; [ reflexivity | ]. split; [ reflexivity | ].
    split; [ reflexivity | ].
    split; intros H.
    + apply (Qplus_inj_r _ _ (taxi * ud)). exact H.
    + rewrite H. reflexivity.
Qed.

Lemma taxi_stop_witness :
  exists s' : TomoScanPSO,
    compute_positions_PSO ["math"] (Bench.scan 0.25 2.5) = Ok tt s' /\
    exists e : Q,
      epics_pvs s' "endTaxi" = VFloat e /\
      e == 180.125 /\
      rotation_stop s' == 179.75.
Proof.
  destruct (taxi_stop_uses_the_stop_on_entry ["math"] (Bench.scan 0.25 2.5)
              0%Z 0 36000 eq_refl eq_refl eq_refl
              ltac:(intro H; vm_compute in H; discriminate H)
              ltac:(intro H; vm_compute in H; discriminate H)
              eq_refl)
    as (s' & Hrun & He & Hstop & _).
  exists s'. split; [ exact Hrun | ].
  eexists. split; [ exact He | ].
  split; [ vm_compute; reflexivity | ].
  rewrite Hstop. vm_compute. reflexivity.
Defined.

(** C1 as stated fails.  For 720 angles from 0 to 180 degrees at a step of
    0.25: as the module stands the call stops at line 319 and leaves
    [endTaxi] as it was; with [math] bound it returns with [endTaxi] at
    180.125 while the recomputed stop is 179.75 and the taxi distance
    0.125. *)
Lemma taxi_stop_round_trip_fails :
  let s := Bench.scan 0.25 2.5 in
  let bare := compute_positions_PSO [] s in
  let full := compute_positions_PSO ["math"] s in
  (returned bare = false /\
   epics_pvs (final bare) "endTaxi" = epics_pvs s "endTaxi") /\
  (returned full = true /\
   exists e : Q,
     epics_pvs (final full) "endTaxi" = VFloat e /\
     e == 180.125 /\
     rotation_stop (final full) == 179.75 /\
     taxi_dist (accel_dist 0 (motor_speed s)) (rotation_step (final full))
       == 0.125 /\
     user_direction_of (rotation_start s) (rotation_stop s) = 1%Z /\
     ~ e == rotation_stop (final full)
            + taxi_dist (accel_dist 0 (motor_speed s))
                (rotation_step (final full)) * 1).
Proof.
  cbv zeta. split.
  - split; vm_compute; reflexivity.
  - split; [ vm_compute; reflexivity | ].
    eexists. split; [ vm_compute; reflexivity | ].
    split; [ vm_compute; reflexivity | ].
    split; [ vm_compute; reflexivity | ].
    split; [ vm_compute; reflexivity | ].
    split; [ vm_compute; reflexivity | ].
    vm_compute. discriminate.
Qed.

(** C6.  As the module stands, no call of [compute_positions_PSO] computes a
    taxi distance: every call raises before line 320, having written neither
    [startTaxi] nor [endTaxi]; with numeric control points and a non-zero
    pulses-per-rotation the exception is the [NameError] of [math] at line
    319, raised in the state reached after line 315. *)
Theorem taxi_distance_is_never_computed :
  forall s : TomoScanPSO,
  exists (e : exn) (s' : TomoScanPSO) (evs : list event),
    compute_positions_PSO [] s = Raise e s' /\
    trace s' = trace s ++ evs /\
    epics_pvs s' "startTaxi" = epics_pvs s "startTaxi" /\
    epics_pvs s' "endTaxi" = epics_pvs s "endTaxi" /\
    (forall v w t, ~ In (Put "startTaxi" v w t) evs) /\
    (forall v w t, ~ In (Put "endTaxi" v w t) evs) /\
    (forall (d : Z) (accl ppr : Q),
       int_of (epics_pvs s "RotationDirection") = Some d ->
       num_of (epics_pvs s "RotationAccelTime") = Some accl ->
       num_of (epics_pvs s "PSOPulsesPerRotation") = Some ppr ->
       ~ ppr == 0 ->
       e = NameError "math" /\ s' = aligned ppr s).
Proof.
  intros s.
  destruct (planner_never_returns s) as (e & s' & evs & Hrun & Ht & H1 & H2 & Hp).
  exists e, s', evs.
  split; [ exact Hrun | ]. split; [ exact Ht | ].
  split; [ exact H1 | ]. split; [ exact H2 | ].
  split; [ | split ].
  - intros v w t Hin. destruct (Hp _ _ _ _ Hin); discriminate.
  - intros v w t Hin. destruct (Hp _ _ _ _ Hin); discriminate.
  - intros d accl ppr Hd Ha Hq Hz.
    rewrite (planner_stops_at_math [] s d accl ppr Hd Ha Hq Hz eq_refl) in Hrun.
    inversion Hrun. split; reflexivity.
Qed.

(** ** The trigger-mode controller: [set_trigger_mode] *)

(** C7.  Whatever the target mode and the starting state,
    [set_trigger_mode] returns, and what it does on the outside starts with
    its log record followed by the blocking write of [Done] to [CamAcquire];
    every other write of the call (there is at least one) comes after it. *)
Theorem set_trigger_mode_stops_first :
  forall (char_value : value -> string) (trigger_mode : string)
         (num_images : Z) (s : TomoScanPSO),
  exists (s' : TomoScanPSO) (e : event) (rest : list event),
    set_trigger_mode char_value trigger_mode num_images s = Ok tt s' /\
    trace s' =
      trace s
      ++ Log INFO "set trigger mode: %s" [AStr trigger_mode]
      :: Put "CamAcquire" (VStr "Done") true None
      :: e :: rest.
Proof.
  intros cv mode n s. unfold set_trigger_mode.
  destruct (String.eqb mode "FreeRun") eqn:E1;
    [ | destruct (String.eqb mode "Internal") eqn:E2 ];
    run; rewrite ?E1, ?E2; run;
    eexists; eexists; eexists;
    (split; [ reflexivity | run; flat; reflexivity ]).
Qed.

(** C8.  For a target mode other than FreeRun and Internal, the writes of
    [set_trigger_mode] are, in order: stop, trigger mode Off, trigger
    source, overlap, exposure mode, image mode, array callbacks, frame-rate
    enable, image count, trigger mode On.  The write of On is the last
    event of the call, and the only write to [CamTriggerMode] before it is
    the Off that precedes the source and the count. *)
Theorem external_trigger_is_enabled_last :
  forall (char_value : value -> string) (trigger_mode : string)
         (num_images : Z) (s : TomoScanPSO),
    String.eqb trigger_mode "FreeRun" = false ->
    String.eqb trigger_mode "Internal" = false ->
    exists s' : TomoScanPSO,
      set_trigger_mode char_value trigger_mode num_images s = Ok tt s' /\
      trace s' =
        trace s
        ++ [ Log INFO "set trigger mode: %s" [AStr trigger_mode];
             Put "CamAcquire" (VStr "Done") true None;
             Put "CamTriggerMode" (VStr "Off") true None;
             Get "ExternalTriggerSource" true;
             Put "CamTriggerSource"
               (VStr (char_value (epics_pvs s "ExternalTriggerSource")))
               true None;
             Put "CamTriggerOverlap" (VInt 1) true None;
             Put "CamExposureMode" (VStr "Timed") true None;
             Put "CamImageMode" (VStr "Multiple") false None;
             Put "CamArrayCallbacks" (VStr "Enable") false None;
             Put "CamFrameRateEnable" (VInt 0) false None;
             Put "CamNumImages" (VInt (num_angles s)) true None;
             Put "CamTriggerMode" (VStr "On") true None ] /\
      epics_pvs s' "CamTriggerMode" = VStr "On".
Proof.
  intros cv mode n s E1 E2. unfold set_trigger_mode.
  destruct s as [pvs start stop step na speed vmax nd nf tot tr].
  run. rewrite E1, E2. run.
  eexists. split; [ reflexivity | ]. run. flat.
  split; reflexivity.
Qed.

Lemma external_trigger_witness :
  exists s' : TomoScanPSO,
    set_trigger_mode Bench.char_value "PSOExternal" 720
      (Bench.scan 0.25 2.5) = Ok tt s' /\
    last (trace s') (Sleep 0) = Put "CamTriggerMode" (VStr "On") true None /\
    nth_error (trace s') 4 = Some (Put "CamTriggerSource" (VStr "Line2") true None) /\
    nth_error (trace s') 10 = Some (Put "CamNumImages" (VInt 720) true None).
Proof.
  destruct (external_trigger_is_enabled_last Bench.char_value "PSOExternal"
              720%Z (Bench.scan 0.25 2.5) eq_refl eq_refl)
    as (s' & Hrun & Ht & _).
  exists s'. split; [ exact Hrun | ].
  rewrite Ht. repeat split.
Defined.

(** ** The scan phases: [begin_scan], [end_scan], [collect_static_frames], [program_PSO] *)

(** Under the imports of lines 9-10, [begin_scan] is its first six
    statements followed by the [NameError] of [time] at line 121. *)
Lemma begin_scan_prefix (base : TomoScan) (char_value : value -> string)
    (s : TomoScanPSO) :
  begin_scan [] base char_value s =
  (log_info "begin scan" [] ;;
   super_begin_scan base ;;
   time_per_angle <- compute_frame_time base ;;
   step <- gets rotation_step ;;
   speed <- py_div step time_per_angle ;;
   modify (with_motor_speed speed) ;;
   raise (NameError "time")) s.
Proof.
  unfold begin_scan, sleep, global, py_div. run.
  destruct (super_begin_scan base _) as [[] s1 | e s1]; [ | reflexivity ].
  destruct (compute_frame_time base s1) as [tpa s2 | e s2]; [ | reflexivity ].
  destruct (Qeq_bool tpa 0); reflexivity.
Qed.

(** So it never returns. *)
Lemma begin_scan_never_returns (base : TomoScan)
    (char_value : value -> string) (s : TomoScanPSO) :
  returned (begin_scan [] base char_value s) = false.
Proof.
  rewrite begin_scan_prefix. unfold py_div. run.
  destruct (super_begin_scan base _) as [[] s1 | e s1]; [ | reflexivity ].
  destruct (compute_frame_time base s1) as [tpa s2 | e s2]; [ | reflexivity ].
  destruct (Qeq_bool tpa 0); reflexivity.
Qed.

(** Where the base setup and the frame time return, it stops at the
    division of line 120 or at line 121. *)
Lemma begin_scan_stops (base : TomoScan) (char_value : value -> string)
    (s s1 s2 : TomoScanPSO) (tpa : Q) :
  super_begin_scan base
    (with_trace (trace s ++ [Log INFO "begin scan" []]) s) = Ok tt s1 ->
  compute_frame_time base s1 = Ok tpa s2 ->
  begin_scan [] base char_value s =
    if Qeq_bool tpa 0
    then Raise ZeroDivisionError s2
    else Raise (NameError "time")
           (with_motor_speed (rotation_step s2 / tpa) s2).
Proof.
  intros H1 H2. rewrite begin_scan_prefix. unfold py_div.
  mrun. rewrite H1. mrun. rewrite H2. mrun.
  destruct (Qeq_bool tpa 0); reflexivity.
Qed.

(** Under the imports of lines 9-10, [end_scan] stops at line 151. *)
Lemma end_scan_stops (base : TomoScan) (char_value : value -> string)
    (splitext : string -> string * string) (s : TomoScanPSO) :
  end_scan [] base char_value splitext s =
    Raise (NameError "os")
      (with_trace
         (trace s
          ++ [ Log INFO "end scan" [];
               Get "FPFullFileName" true;
               Log INFO "data save location: %s"
                 [AStr (char_value (epics_pvs s "FPFullFileName"))] ]) s).
Proof.
  destruct s as [pvs start stop step n speed vmax nd nf tot tr].
  unfold end_scan, global. run. flat. reflexivity.
Qed.

(** Under the imports of lines 9-10, [collect_static_frames] stops at
    line 79, after the acquisition has been started. *)
Lemma collect_static_frames_stops (base : TomoScan)
    (char_value : value -> string) (num_frames : Z) (s : TomoScanPSO) :
  exists s' : TomoScanPSO,
    collect_static_frames [] base char_value num_frames s =
      Raise (NameError "time") s' /\
    trace s' =
      trace s
      ++ [ Log INFO "collect static frames: %d" [AInt num_frames];
           Log INFO "set trigger mode: %s" [AStr "Internal"];
           Put "CamAcquire" (VStr "Done") true None;
           Put "CamTriggerMode" (VStr "Off") true None;
           Put "CamImageMode" (VStr "Multiple") false None;
           Put "CamNumImages" (VInt num_frames) true None;
           Put "CamAcquire" (VStr "Acquire") false None ].
Proof.
  destruct s as [pvs start stop step n speed vmax nd nf tot tr].
  unfold collect_static_frames, set_trigger_mode, sleep, global.
  eexists. split; [ reflexivity | ]. run. flat. reflexivity.
Qed.

(** Under the imports of lines 9-10, [program_PSO] stops at line 228 at the
    latest. *)
Lemma program_PSO_stops (char_value : value -> string) (s : TomoScanPSO) :
  exists (e : exn) (s' : TomoScanPSO) (evs : list event),
    program_PSO [] char_value s = Raise e s' /\
    trace s' = trace s ++ evs /\
    (forall v w t, In (Put "PSOAsyn" v w t) evs ->
       v = VStr ("PSOCONTROL " ++ char_value (epics_pvs s "PSOAxisName")
                 ++ " RESET")) /\
    (forall d i : Z,
       int_of (epics_pvs s "RotationDirection") = Some d ->
       Py.int_of_string (char_value (epics_pvs s "PSOEncoderInput")) = Some i ->
       e = NameError "time").
Proof.
  destruct s as [pvs start stop step n speed vmax nd nf tot tr].
  unfold program_PSO, _compute_senses, sleep, global. run.
  destruct (int_of (pvs "RotationDirection")) as [d |]; run;
    [ destruct (Py.int_of_string (char_value (pvs "PSOEncoderInput")))
        as [i |]; run | ];
    do 3 eexists; (split; [ reflexivity | ]); run; flat;
    (split; [ reflexivity | ]);
    (split;
     [ intros v w t Hin; cbn in Hin;
       repeat (destruct Hin as [Hin | Hin];
               [ try discriminate Hin; inversion Hin; reflexivity | ]);
       contradiction
     | intros d' i' Hd Hi; try discriminate; reflexivity ]).
Qed.

(** C9.  As the module stands, no call of [begin_scan] returns, and every
    call is the base setup, the frame time, the division and the assignment
    of [motor_speed], then the [NameError] of [time] at line 121: the calls
    of [compute_positions] and [program_PSO] and the two file-writer writes
    are never reached.  (Line 124 names [compute_positions], an attribute
    of the base class, and not the [compute_positions_PSO] of this
    class.) *)
Theorem begin_scan_stops_before_the_planner :
  forall (base : TomoScan) (char_value : value -> string) (s : TomoScanPSO),
    returned (begin_scan [] base char_value s) = false /\
    begin_scan [] base char_value s =
    (log_info "begin scan" [] ;;
     super_begin_scan base ;;
     time_per_angle <- compute_frame_time base ;;
     step <- gets rotation_step ;;
     speed <- py_div step time_per_angle ;;
     modify (with_motor_speed speed) ;;
     raise (NameError "time")) s.
Proof.
  intros base cv s. split.
  - apply begin_scan_never_returns.
  - apply begin_scan_prefix.
Qed.

(** C2, as amended.  When the base setup and the frame-time computation
    return and the frame time is not zero, [begin_scan] sets [motor_speed]
    to [rotation_step] divided by the frame time and goes on from there
    with line 121, in any namespace; the value is not compared with
    [max_rotation_speed].  As the module stands the call ends right there:
    nothing more is written or logged, and the object keeps that speed. *)
Theorem motor_speed_is_step_over_frame_time :
  forall (injected : list string) (base : TomoScan)
         (char_value : value -> string)
         (s s1 s2 : TomoScanPSO) (time_per_angle : Q),
    super_begin_scan base
      (with_trace (trace s ++ [Log INFO "begin scan" []]) s) = Ok tt s1 ->
    compute_frame_time base s1 = Ok time_per_angle s2 ->
    ~ time_per_angle == 0 ->
    let after_line_120 :=
      with_motor_speed (rotation_step s2 / time_per_angle) s2 in
    let s' := final (begin_scan [] base char_value s) in
    begin_scan injected base char_value s =
      (sleep injected 0.1 ;;
       compute_positions base ;;
       program_PSO injected char_value ;;
       total <- gets total_images ;;
       pv_put "FPNumCapture" (VInt total) true None ;;
       pv_put "FPCapture" (VStr "Capture") false None) after_line_120 /\
    motor_speed after_line_120 = rotation_step s2 / time_per_angle /\
    max_rotation_speed after_line_120 = max_rotation_speed s2 /\
    s' = after_line_120.
Proof.
  intros injected base cv s s1 s2 tpa H1 H2 Hz after s'. subst after s'.
  assert (E : Qeq_bool tpa 0 = false).
  { destruct (Qeq_bool tpa 0) eqn:E; [ | reflexivity ].
    apply Qeq_bool_iff in E. contradiction. }
  split; [ | split; [ | split ] ].
  - unfold begin_scan, py_div. mrun. rewrite H1. mrun. rewrite H2. mrun.
    rewrite E. reflexivity.
  - destruct s2. reflexivity.
  - destruct s2. reflexivity.
  - rewrite (begin_scan_stops base cv s s1 s2 tpa H1 H2), E. reflexivity.
Qed.

Lemma motor_speed_witness :
  let s' := final (begin_scan [] (Bench.base 0.1) Bench.char_value
                     (Bench.scan 0.25 0)) in
  motor_speed s' == 2.5 /\ max_rotation_speed s' == 50.
Proof.
  destruct (motor_speed_is_step_over_frame_time [] (Bench.base 0.1)
              Bench.char_value (Bench.scan 0.25 0) _ _ 0.1
              eq_refl eq_refl
              ltac:(intro H; vm_compute in H; discriminate H))
    as (_ & _ & _ & Hs).
  cbv zeta. rewrite Hs. split; vm_compute; reflexivity.
Defined.

(** C2 as stated fails: a step of 0.25 degrees at a frame time of 1 ms
    gives a motor speed of 250, above the maximum of 50. *)
Lemma motor_speed_can_exceed_the_maximum :
  let s' := final (begin_scan [] (Bench.base 0.001) Bench.char_value
                     (Bench.scan 0.25 0)) in
  motor_speed s' == 250 /\
  max_rotation_speed s' == 50 /\
  ~ motor_speed s' <= max_rotation_speed s'.
Proof.
  cbv zeta. split; [ vm_compute; reflexivity | ].
  split; [ vm_compute; reflexivity | ].
  vm_compute. intros H. apply H. reflexivity.
Qed.

(** C3.  As the module stands, every call of [end_scan] raises the
    [NameError] of [os] at line 151, before [save_configuration] is called:
    it logs, reads the file name and logs it, and none of the restore steps
    (FreeRun, rotation speed, PSO cleanup, sample in, base teardown) is
    executed. *)
Theorem end_scan_stops_before_the_restore :
  forall (base : TomoScan) (char_value : value -> string)
         (splitext : string -> string * string) (s : TomoScanPSO),
    end_scan [] base char_value splitext s =
      Raise (NameError "os")
        (with_trace
           (trace s
            ++ [ Log INFO "end scan" [];
                 Get "FPFullFileName" true;
                 Log INFO "data save location: %s"
                   [AStr (char_value (epics_pvs s "FPFullFileName"))] ]) s) /\
    epics_pvs (final (end_scan [] base char_value splitext s)) = epics_pvs s.
Proof.
  intros base cv sp s. rewrite end_scan_stops. split; [ reflexivity | ].
  destruct s. reflexivity.
Qed.

(** C5.  As the module stands, no call of [program_PSO] programs a pulse
    window: every call raises, and the only command it can have sent to the
    controller by then is the [PSOCONTROL ... RESET] of line 227; when the
    direction and the encoder input read as integers the exception is the
    [NameError] of [time] at line 228. *)
Theorem pulse_window_is_never_programmed :
  forall (char_value : value -> string) (s : TomoScanPSO),
  exists (e : exn) (s' : TomoScanPSO) (evs : list event),
    program_PSO [] char_value s = Raise e s' /\
    trace s' = trace s ++ evs /\
    (forall v w t, In (Put "PSOAsyn" v w t) evs ->
       v = VStr ("PSOCONTROL " ++ char_value (epics_pvs s "PSOAxisName")
                 ++ " RESET")) /\
    (forall d i : Z,
       int_of (epics_pvs s "RotationDirection") = Some d ->
       Py.int_of_string (char_value (epics_pvs s "PSOEncoderInput")) = Some i ->
       e = NameError "time").
Proof.
  intros cv s. apply program_PSO_stops.
Qed.

(** ** The unresolved names *)

(** As the module stands, the planner raises the [NameError] of [math]
    exactly when it has written [RotationStep] at line 315; any other
    exception was raised by an earlier statement. *)
Lemma planner_stops_at_math_or_before (s : TomoScanPSO) :
  exists (e : exn) (s' : TomoScanPSO) (evs : list event),
    compute_positions_PSO [] s = Raise e s' /\
    trace s' = trace s ++ evs /\
    (e = NameError "math" <->
     exists v : value, In (Put "RotationStep" v false None) evs).
Proof.
  destruct s as [pvs start stop step n speed vmax nd nf tot tr].
  unfold compute_positions_PSO, _compute_senses, py_div, global.
  run.
  destruct (int_of (pvs "RotationDirection")); run;
    [ destruct (num_of (pvs "RotationAccelTime")); run;
      [ destruct (num_of (pvs "PSOPulsesPerRotation")) as [ppr|]; run;
        [ destruct (needs_warning step ppr); run;
          destruct (Qeq_bool (encoder_multiply ppr) 0); run | ] | ] | ];
    do 3 eexists; (split; [ reflexivity | ]); run; flat;
    (split; [ reflexivity | ]);
    (split;
     [ intros E; try discriminate E; eexists; cbn; auto 10
     | intros (v & Hin); cbn in Hin;
       repeat (destruct Hin as [Hin | Hin]; [ try discriminate Hin | ]);
       try contradiction; reflexivity ]).
Qed.

(** A number of magnitude at least 1 is not zero. *)
Lemma at_least_one_is_not_zero (x : Q) : 1 <= Qabs x -> ~ x == 0.
Proof.
  intros H E. rewrite E in H. vm_compute in H. apply H. reflexivity.
Qed.

(** C10, as amended.  As the module stands, no call of
    [collect_static_frames], [end_scan], [compute_positions_PSO] or
    [begin_scan] returns: each raises an exception.
    [collect_static_frames] always raises the [NameError] of [time]
    (line 79), once the acquisition has been started, and [end_scan] always
    that of [os] (line 151), before any write.
    [compute_positions_PSO] raises the [NameError] of [math] (line 319)
    exactly when it has got past line 315, that is, has written
    [RotationStep]; any other exception is that of an earlier statement
    (line 314 raises [ZeroDivisionError] when no pulses per rotation are
    configured).  It does get there, and raises that [NameError], whenever
    [RotationDirection] reads as an integer, [RotationAccelTime] and
    [PSOPulsesPerRotation] read as numbers of magnitude at most 2^1000, the
    pulses per rotation have magnitude at least 1 and the raw count has
    magnitude at most 2^1000: within these bounds the conversions of
    lines 299-315 succeed, the raw count is a finite binary64 number and
    the counts per degree are not zero.
    [begin_scan] raises the exception of the base setup or of the
    frame-time computation when one of them raises; when both return, it
    raises [ZeroDivisionError] (line 120) for a zero frame time and the
    [NameError] of [time] (line 121) otherwise. *)
Theorem unresolved_names_stop_the_calls :
  (forall (base : TomoScan) (char_value : value -> string) (num_frames : Z)
          (s : TomoScanPSO),
   exists s' : TomoScanPSO,
     collect_static_frames [] base char_value num_frames s =
       Raise (NameError "time") s' /\
     trace s' =
       trace s
       ++ [ Log INFO "collect static frames: %d" [AInt num_frames];
            Log INFO "set trigger mode: %s" [AStr "Internal"];
            Put "CamAcquire" (VStr "Done") true None;
            Put "CamTriggerMode" (VStr "Off") true None;
            Put "CamImageMode" (VStr "Multiple") false None;
            Put "CamNumImages" (VInt num_frames) true None;
            Put "CamAcquire" (VStr "Acquire") false None ]) /\
  (forall (base : TomoScan) (char_value : value -> string)
          (splitext : string -> string * string) (s : TomoScanPSO),
   exists s' : TomoScanPSO,
     end_scan [] base char_value splitext s = Raise (NameError "os") s' /\
     forall pv v w t, In (Put pv v w t) (trace s') -> In (Put pv v w t) (trace s)) /\
  (forall s : TomoScanPSO,
   exists (e : exn) (s' : TomoScanPSO) (evs : list event),
     compute_positions_PSO [] s = Raise e s' /\
     trace s' = trace s ++ evs /\
     (e = NameError "math" <->
      exists v : value, In (Put "RotationStep" v false None) evs)) /\
  (forall (s : TomoScanPSO) (d : Z) (accl ppr : Q),
     int_of (epics_pvs s "RotationDirection") = Some d ->
     num_of (epics_pvs s "RotationAccelTime") = Some accl ->
     num_of (epics_pvs s "PSOPulsesPerRotation") = Some ppr ->
     Qabs accl <= binary64_range ->
     1 <= Qabs ppr ->
     Qabs ppr <= binary64_range ->
     Qabs (rotation_step s * (ppr / 360)) <= binary64_range ->
     exists s' : TomoScanPSO,
       compute_positions_PSO [] s = Raise (NameError "math") s') /\
  (forall (base : TomoScan) (char_value : value -> string) (s : TomoScanPSO),
   exists (e : exn) (s' : TomoScanPSO),
     begin_scan [] base char_value s = Raise e s') /\
  (forall (base : TomoScan) (char_value : value -> string)
          (s s1 : TomoScanPSO) (e : exn),
     super_begin_scan base
       (with_trace (trace s ++ [Log INFO "begin scan" []]) s) = Raise e s1 ->
     begin_scan [] base char_value s = Raise e s1) /\
  (forall (base : TomoScan) (char_value : value -> string)
          (s s1 s2 : TomoScanPSO) (e : exn),
     super_begin_scan base
       (with_trace (trace s ++ [Log INFO "begin scan" []]) s) = Ok tt s1 ->
     compute_frame_time base s1 = Raise e s2 ->
     begin_scan [] base char_value s = Raise e s2) /\
  (forall (base : TomoScan) (char_value : value -> string)
          (s s1 s2 : TomoScanPSO) (time_per_angle : Q),
     super_begin_scan base
       (with_trace (trace s ++ [Log INFO "begin scan" []]) s) = Ok tt s1 ->
     compute_frame_time base s1 = Ok time_per_angle s2 ->
     exists s' : TomoScanPSO,
       begin_scan [] base char_value s =
         Raise (if Qeq_bool time_per_angle 0 then ZeroDivisionError
                else NameError "time") s').
Proof.
  split; [ | split; [ | split; [ | split; [ | split; [ | split; [ | split ] ] ] ] ] ].
  - intros base cv n s. apply collect_static_frames_stops.
  - intros base cv sp s. rewrite end_scan_stops. eexists.
    split; [ reflexivity | ].
    intros pv v w t Hin. cbn [trace with_trace] in Hin.
    apply in_app_or in Hin. destruct Hin as [Hin | Hin]; [ exact Hin | ].
    cbn in Hin.
    repeat (destruct Hin as [Hin | Hin]; [ discriminate Hin | ]).
    contradiction.
  - intros s. apply planner_stops_at_math_or_before.
  - intros s d accl ppr Hd Ha Hp _ Hlo _ _. eexists.
    apply (planner_stops_at_math [] s d accl ppr Hd Ha Hp
             (at_least_one_is_not_zero ppr Hlo) eq_refl).
  - intros base cv s.
    pose proof (begin_scan_never_returns base cv s) as H.
    destruct (begin_scan [] base cv s) as [[] s' | e s'];
      [ discriminate H | ].
    exists e, s'. reflexivity.
  - intros base cv s s1 e H1. rewrite begin_scan_prefix.
    mrun. rewrite H1. reflexivity.
  - intros base cv s s1 s2 e H1 H2. rewrite begin_scan_prefix.
    mrun. rewrite H1. mrun. rewrite H2. reflexivity.
  - intros base cv s s1 s2 tpa H1 H2.
    rewrite (begin_scan_stops base cv s s1 s2 tpa H1 H2).
    destruct (Qeq_bool tpa 0); eexists; reflexivity.
Qed.

Lemma unresolved_names_witness :
  (exists s' : TomoScanPSO,
     compute_positions_PSO [] (Bench.scan 0.25 2.5) =
       Raise (NameError "math") s') /\
  (exists s' : TomoScanPSO,
     begin_scan [] (Bench.base 0.1) Bench.char_value (Bench.scan 0.25 0) =
       Raise (NameError "time") s').
Proof.
  destruct unresolved_names_stop_the_calls
    as (_ & _ & _ & Hp & _ & _ & _ & Hb).
  split.
  - apply (Hp (Bench.scan 0.25 2.5) 0%Z 0 36000 eq_refl eq_refl eq_refl);
      intro H; vm_compute in H; discriminate H.
  - exact (Hb (Bench.base 0.1) Bench.char_value (Bench.scan 0.25 0) _ _ 0.1
             eq_refl eq_refl).
Defined.

(** C10 as stated fails: with no pulses-per-rotation configured,
    [compute_positions_PSO] raises [ZeroDivisionError] at line 314 and no
    [NameError]; with a zero frame time so does [begin_scan] at line 120. *)
Lemma zero_division_comes_first :
  (exists s' : TomoScanPSO,
     compute_positions_PSO [] Bench.unconfigured =
       Raise ZeroDivisionError s') /\
  (forall (name : string) (s' : TomoScanPSO),
     compute_positions_PSO [] Bench.unconfigured <> Raise (NameError name) s') /\
  (exists s' : TomoScanPSO,
     begin_scan [] (Bench.base 0) Bench.char_value (Bench.scan 0.25 0) =
       Raise ZeroDivisionError s').
Proof.
  split; [ | split ].
  - apply (planner_zero_pulses [] Bench.unconfigured 0%Z 0 0
             eq_refl eq_refl eq_refl).
    reflexivity.
  - intros name s' H. vm_compute in H. discriminate H.
  - rewrite (begin_scan_stops (Bench.base 0) Bench.char_value
               (Bench.scan 0.25 0) _ _ 0 eq_refl eq_refl).
    eexists. reflexivity.
Qed.

(** ** The arithmetic by itself *)

(** [round] of a number that is an integer is that integer. *)
Lemma round_of_integer (x : Q) (z : Z) : x == inject_Z z -> Py.round x = z.
Proof.
  intros E. unfold Py.round.
  assert (Hf : Qfloor x = z) by (rewrite E; apply Qfloor_Z).
  rewrite Hf.
  assert (Hlt : x - inject_Z z < 1 # 2) by (rewrite E; lra).
  pose proof (proj1 (Qlt_alt (x - inject_Z z) (1 # 2)) Hlt) as Hc.
  rewrite Hc. reflexivity.
Qed.



(** X2.  The arithmetic of lines 252-261: for a non-negative spacing and a
    non-negative number of angles, whatever the sign of [overall_sense], the
    first number of the range command is less than the second. *)
Theorem programmed_window_is_ordered :
  forall (spacing : Q) (num_angles overall_sense : Z),
    0 <= spacing -> (0 <= num_angles)%Z ->
    let w := programmed_window
               (window (range_start spacing overall_sense)
                  (range_length spacing num_angles) overall_sense) in
    (fst w < snd w)%Z.
Proof.
  intros spacing n sense Hs Hn w. subst w.
  assert (HL : 0 <= range_length spacing n).
  { unfold range_length. apply Qmult_le_0_compat; [ exact Hs | ].
    change 0 with (inject_Z 0). rewrite <- Zle_Qle. exact Hn. }
  set (rs := range_start spacing sense) in *.
  set (L := range_length spacing n) in *.
  unfold window, programmed_window.
  destruct (0 <? sense)%Z; cbn [fst snd];
    match goal with
    | |- (Py.trunc ?a < Py.trunc ?b)%Z =>
        destruct (trunc_near a) as [_ Ha]; destruct (trunc_near b) as [Hb _];
        rewrite Zlt_Qlt; lra
    end.
Qed.

Lemma programmed_window_witness :
  let w := programmed_window
             (window (range_start 25 (-1)) (range_length 25 720) (-1)) in
  w = ((-17993)%Z, 17%Z) /\ (fst w < snd w)%Z.
Proof.
  split; [ vm_compute; reflexivity | ].
  exact (programmed_window_is_ordered 25 720 (-1)
           ltac:(discriminate) ltac:(discriminate)).
Defined.



(** ** The methods that mention no unresolved name *)

(** X4.  [cleanup_PSO] always returns; it logs, reads the axis name and the
    encoder input, and sends two blocking commands: window off, then
    control off. *)
Theorem cleanup_PSO_disarms :
  forall (char_value : value -> string) (s : TomoScanPSO),
  exists s' : TomoScanPSO,
    cleanup_PSO char_value s = Ok tt s' /\
    trace s' =
      trace s
      ++ [ Log INFO
             "Cleaning up PSO programming and setting to retrace speed." [];
           Get "PSOAxisName" true;
           Get "PSOEncoderInput" true;
           Put "PSOAsyn"
             (VStr ("PSOWINDOW " ++ char_value (epics_pvs s "PSOAxisName")
                    ++ " OFF")) true None;
           Put "PSOAsyn"
             (VStr ("PSOCONTROL " ++ char_value (epics_pvs s "PSOAxisName")
                    ++ " OFF")) true None ].
Proof.
  intros cv s. destruct s as [pvs start stop step n speed vmax nd nf tot tr].
  unfold cleanup_PSO. eexists. split; [ reflexivity | ].
  run. flat. reflexivity.
Qed.

(** X5.  The FreeRun and Internal branches of [set_trigger_mode]: FreeRun
    stops, sets continuous image mode, turns triggering off and restarts
    the acquisition without waiting; Internal stops, turns triggering off,
    sets multiple image mode and the image count, and does not start the
    acquisition. *)
Theorem free_run_and_internal_modes :
  forall (char_value : value -> string) (num_images : Z) (s : TomoScanPSO),
    (exists s' : TomoScanPSO,
       set_trigger_mode char_value "FreeRun" num_images s = Ok tt s' /\
       trace s' =
         trace s
         ++ [ Log INFO "set trigger mode: %s" [AStr "FreeRun"];
              Put "CamAcquire" (VStr "Done") true None;
              Put "CamImageMode" (VStr "Continuous") true None;
              Put "CamTriggerMode" (VStr "Off") true None;
              Put "CamAcquire" (VStr "Acquire") false None ]) /\
    (exists s' : TomoScanPSO,
       set_trigger_mode char_value "Internal" num_images s = Ok tt s' /\
       trace s' =
         trace s
         ++ [ Log INFO "set trigger mode: %s" [AStr "Internal"];
              Put "CamAcquire" (VStr "Done") true None;
              Put "CamTriggerMode" (VStr "Off") true None;
              Put "CamImageMode" (VStr "Multiple") false None;
              Put "CamNumImages" (VInt num_images) true None ] /\
       epics_pvs s' "CamAcquire" = VStr "Done").
Proof.
  intros cv n s. destruct s as [pvs start stop step na speed vmax nd nf tot tr].
  unfold set_trigger_mode. split; eexists.
  - split; [ reflexivity | ]. run. flat. reflexivity.
  - split; [ reflexivity | ]. run. flat. split; reflexivity.
Qed.

(** X6.  [_compute_senses] with a direction control point that reads as the
    integer [d]: the user direction is +1 when the stop exceeds the start
    and -1 otherwise, the overall sense is the user direction times
    [1 - 2 d] times the encoder direction -1, and both are +1 or -1 when
    [d] is 0 or 1. *)
Theorem senses_are_signs :
  forall (s : TomoScanPSO) (d : Z),
    int_of (epics_pvs s "RotationDirection") = Some d ->
    let ud := user_direction_of (rotation_start s) (rotation_stop s) in
    _compute_senses s =
      Ok ((ud * (1 - d * 2) * -1)%Z, ud)
         (with_trace (trace s ++ [Get "RotationDirection" false]) s) /\
    (ud = 1%Z <-> rotation_start s < rotation_stop s) /\
    (ud = 1%Z \/ ud = (-1)%Z) /\
    (d = 0%Z \/ d = 1%Z ->
     (ud * (1 - d * 2) * -1 = 1)%Z \/ (ud * (1 - d * 2) * -1 = -1)%Z).
Proof.
  intros s d Hd ud. subst ud.
  destruct s as [pvs start stop step n speed vmax nd nf tot tr].
  cbn [epics_pvs rotation_start rotation_stop] in *.
  split; [ unfold _compute_senses; run; rewrite Hd; run; reflexivity | ].
  unfold user_direction_of.
  destruct (Py.ltb start stop) eqn:E.
  - apply ltb_lt in E. split; [ tauto | ]. split; [ auto | ]. lia.
  - split; [ | split; [ auto | lia ] ].
    split; [ discriminate | ]. intros H. apply ltb_lt in H. congruence.
Qed.

Lemma senses_witness :
  _compute_senses (Bench.scan 0.25 2.5) =
    Ok ((-1)%Z, 1%Z)
       (with_trace [Get "RotationDirection" false] (Bench.scan 0.25 2.5)).
Proof.
  destruct (senses_are_signs (Bench.scan 0.25 2.5) 0%Z eq_refl) as (H & _).
  exact H.
Defined.

(** X7.  [collect_projections], once the base method has returned: a
    blocking move to the taxi start, the switch to external triggering
    (ending with trigger mode On), the start of the acquisition, the
    non-blocking move to the taxi end, and then a wait for the camera of
    [num_angles] frame times plus 60 seconds. *)
Theorem collect_projections_sequence :
  forall (base : TomoScan) (char_value : value -> string)
         (s s1 : TomoScanPSO),
    super_collect_projections base
      (with_trace (trace s ++ [Log INFO "collect projections" []]) s)
      = Ok tt s1 ->
    exists s2 : TomoScanPSO,
      collect_projections base char_value s =
        (time_per_angle <- compute_frame_time base ;;
         n <- gets num_angles ;;
         wait_camera_done base (inject_Z n * time_per_angle + 60)) s2 /\
      trace s2 =
        trace s1
        ++ [ Log INFO "taxi before starting capture" [];
             Get "startTaxi" false;
             Put "Rotation" (epics_pvs s1 "startTaxi") true None;
             Log INFO "set trigger mode: %s" [AStr "PSOExternal"];
             Put "CamAcquire" (VStr "Done") true None;
             Put "CamTriggerMode" (VStr "Off") true None;
             Get "ExternalTriggerSource" true;
             Put "CamTriggerSource"
               (VStr (char_value (epics_pvs s1 "ExternalTriggerSource")))
               true None;
             Put "CamTriggerOverlap" (VInt 1) true None;
             Put "CamExposureMode" (VStr "Timed") true None;
             Put "CamImageMode" (VStr "Multiple") false None;
             Put "CamArrayCallbacks" (VStr "Enable") false None;
             Put "CamFrameRateEnable" (VInt 0) false None;
             Put "CamNumImages" (VInt (num_angles s1)) true None;
             Put "CamTriggerMode" (VStr "On") true None;
             Put "CamAcquire" (VStr "Acquire") false None;
             Log INFO "start fly scan" [];
             Get "endTaxi" false;
             Put "Rotation" (epics_pvs s1 "endTaxi") false None ].
Proof.
  intros base cv s s1 H1. unfold collect_projections. mrun. rewrite H1.
  destruct s1 as [pvs start stop step n speed vmax nd nf tot tr].
  unfold set_trigger_mode.
  eexists. split.
  - run. reflexivity.
  - run. flat. reflexivity.
Qed.

Lemma collect_projections_witness :
  returned (collect_projections (Bench.base 0.1) Bench.char_value
              (Bench.scan 0.25 2.5)) = true /\
  last (trace (final (collect_projections (Bench.base 0.1) Bench.char_value
                        (Bench.scan 0.25 2.5)))) (Sleep 0)
    = Put "Rotation" (VInt 0) false None.
Proof.
  destruct (collect_projections_sequence (Bench.base 0.1) Bench.char_value
              (Bench.scan 0.25 2.5) _ eq_refl) as (s2 & Hrun & Ht).
  split; vm_compute; reflexivity.
Defined.

(** ** [program_PSO] where [time] is bound *)

(** X8.  In a namespace that binds [time], with a direction and an encoder
    input that read as integers and a numeric [EncoderPulsesPerStep],
    [program_PSO] returns after this sequence: speed to maximum, blocking
    move to the start, speed to [motor_speed], then reset, output, pulse,
    window mask, encoder input, spacing, window input and window range, each
    followed by a sleep, and the arming command last. *)
Theorem program_PSO_arms_last :
  forall (injected : list string) (char_value : value -> string)
         (s : TomoScanPSO) (d i : Z) (spacing : Q),
    bound injected "time" = true ->
    int_of (epics_pvs s "RotationDirection") = Some d ->
    Py.int_of_string (char_value (epics_pvs s "PSOEncoderInput")) = Some i ->
    num_of (epics_pvs s "EncoderPulsesPerStep") = Some spacing ->
    let axis := char_value (epics_pvs s "PSOAxisName") in
    let sense :=
      (user_direction_of (rotation_start s) (rotation_stop s)
       * (1 - d * 2) * -1)%Z in
    let w := programmed_window
               (window (range_start spacing sense)
                  (range_length spacing (num_angles s)) sense) in
    let cmd := fun c : string => Put "PSOAsyn" (VStr c) true (Some 10.0) in
    exists s' : TomoScanPSO,
      program_PSO injected char_value s = Ok tt s' /\
      trace s' =
        trace s
        ++ [ Get "RotationDirection" false;
             Get "PSOAxisName" true;
             Get "PSOEncoderInput" true;
             Put "RotationSpeed" (VFloat (max_rotation_speed s)) false None;
             Put "Rotation" (VFloat (rotation_start s)) true None;
             Put "RotationSpeed" (VFloat (motor_speed s)) false None;
             cmd ("PSOCONTROL " ++ axis ++ " RESET")%string; Sleep 0.05;
             cmd ("PSOOUTPUT " ++ axis ++ " CONTROL 1")%string; Sleep 0.05;
             cmd ("PSOPULSE " ++ axis ++ " TIME 20,10")%string; Sleep 0.05;
             cmd ("PSOOUTPUT " ++ axis ++ " PULSE WINDOW MASK")%string; Sleep 0.05;
             cmd ("PSOTRACK " ++ axis ++ " INPUT " ++ Py.fmt_d i)%string; Sleep 0.05;
             Get "EncoderPulsesPerStep" false;
             cmd ("PSODISTANCE " ++ axis ++ " FIXED "
                  ++ Py.fmt_d (Py.trunc spacing))%string; Sleep 0.05;
             cmd ("PSOWINDOW " ++ axis ++ " 1 INPUT " ++ Py.fmt_d i)%string;
             Sleep 0.05;
             Get "EncoderPulsesPerStep" false;
             Get "EncoderPulsesPerStep" false;
             cmd ("PSOWINDOW " ++ axis ++ " 1 RANGE "
                  ++ Py.fmt_d (fst w) ++ "," ++ Py.fmt_d (snd w))%string;
             Sleep 0.05;
             cmd ("PSOCONTROL " ++ axis ++ " ARM")%string ].
Proof.
  intros injected cv s d i spacing Ht Hd Hi Hs axis sense w cmd.
  subst axis sense w cmd.
  destruct s as [pvs start stop step n speed vmax nd nf tot tr].
  cbn [epics_pvs rotation_start rotation_stop num_angles motor_speed
       max_rotation_speed trace] in *.
  unfold program_PSO, _compute_senses, sleep, global.
  run. rewrite Hd. run. rewrite Hi. run. rewrite Ht. run.
  do 3 (cbv beta iota delta [store]; names; rewrite ?Hs; run).
  eexists. split; [ reflexivity | ]. flat. reflexivity.
Qed.

Lemma program_PSO_witness :
  exists s' : TomoScanPSO,
    program_PSO ["time"] Bench.char_value (Bench.scan 0.25 2.5) = Ok tt s' /\
    nth_error (trace s') 23
      = Some (Put "PSOAsyn" (VStr "PSOWINDOW X 1 RANGE -17993,17") true
                (Some 10.0)) /\
    last (trace s') (Sleep 0)
      = Put "PSOAsyn" (VStr "PSOCONTROL X ARM") true (Some 10.0).
Proof.
  destruct (program_PSO_arms_last ["time"] Bench.char_value
              (Bench.scan 0.25 2.5) 0%Z 3%Z 25
              eq_refl eq_refl eq_refl eq_refl) as (s' & Hrun & Ht).
  exists s'. split; [ exact Hrun | ].
  rewrite Ht. split; vm_compute; reflexivity.
Defined.


(** ** The two examples in binary64 *)

(** In binary64 arithmetic, a step of 0.24999 at 36000 pulses per
    rotation gives a count strictly between 24.5 and 25.5, so that it
    rounds to 25, at more than 1e-4 from 25, so that the warning is logged,
    and a corrected step of exactly 0.25; a step of 0.25 gives exactly 25
    counts, no warning and the step 0.25 again. *)
Theorem examples_in_binary64 :
  let raw := Binary64.raw_delta_encoder_counts 0.24999 36000 in
  let raw' := Binary64.raw_delta_encoder_counts 0.25 36000 in
  (24.5 <? raw)%float = true /\
  (raw <? 25.5)%float = true /\
  Binary64.needs_warning raw 25 = true /\
  (Binary64.corrected_step 25 36000 =? 0.25)%float = true /\
  (raw' =? 25)%float = true /\
  Binary64.needs_warning raw' 25 = false.
Proof.
  cbv zeta. repeat split; vm_compute; reflexivity.
Qed.

(** ** [end_scan] where [os] is bound *)

(** X10.  In a namespace that binds [os], [end_scan] calls
    [save_configuration] with the file name stripped of its extension and
    followed by [.config].  If that call raises, [end_scan] raises the same
    exception and restores nothing.  If it returns, [end_scan] goes on, in
    this order, with the FreeRun sequence of [set_trigger_mode], the write
    of the maximum speed to [RotationSpeed], the two commands of
    [cleanup_PSO], [move_sample_in] and the base [end_scan]. *)
Theorem end_scan_restores_in_order :
  forall (injected : list string) (base : TomoScan)
         (char_value : value -> string)
         (splitext : string -> string * string) (s : TomoScanPSO),
    bound injected "os" = true ->
    let name := char_value (epics_pvs s "FPFullFileName") in
    let saved :=
      save_configuration base (fst (splitext name) ++ ".config")%string
        (with_trace
           (trace s
            ++ [ Log INFO "end scan" [];
                 Get "FPFullFileName" true;
                 Log INFO "data save location: %s" [AStr name] ]) s) in
    (forall (e : exn) (s1 : TomoScanPSO),
       saved = Raise e s1 ->
       end_scan injected base char_value splitext s = Raise e s1) /\
    (forall s1 : TomoScanPSO,
       saved = Ok tt s1 ->
       exists s2 : TomoScanPSO,
         end_scan injected base char_value splitext s =
           (move_sample_in base ;; super_end_scan base) s2 /\
         trace s2 =
           trace s1
           ++ [ Log INFO "set trigger mode: %s" [AStr "FreeRun"];
                Put "CamAcquire" (VStr "Done") true None;
                Put "CamImageMode" (VStr "Continuous") true None;
                Put "CamTriggerMode" (VStr "Off") true None;
                Put "CamAcquire" (VStr "Acquire") false None;
                Put "RotationSpeed" (VFloat (max_rotation_speed s1))
                  false None;
                Log INFO
                  "Cleaning up PSO programming and setting to retrace speed."
                  [];
                Get "PSOAxisName" true;
                Get "PSOEncoderInput" true;
                Put "PSOAsyn"
                  (VStr ("PSOWINDOW "
                         ++ char_value (epics_pvs s1 "PSOAxisName")
                         ++ " OFF")) true None;
                Put "PSOAsyn"
                  (VStr ("PSOCONTROL "
                         ++ char_value (epics_pvs s1 "PSOAxisName")
                         ++ " OFF")) true None ]).
Proof.
  intros injected base cv sp s Hos name saved.
  assert (Hrun : end_scan injected base cv sp s =
                 match saved with
                 | Ok _ s1 =>
                     (set_trigger_mode cv "FreeRun" 1 ;;
                      vmax <- gets max_rotation_speed ;;
                      pv_put "RotationSpeed" (VFloat vmax) false None ;;
                      cleanup_PSO cv ;;
                      move_sample_in base ;;
                      super_end_scan base) s1
                 | Raise e s1 => Raise e s1
                 end).
  { subst saved name. unfold end_scan, global. rewrite Hos.
    destruct s as [pvs start stop step n speed vmax nd nf tot tr].
    run. flat. reflexivity. }
  split.
  - intros e s1 Hs. rewrite Hrun, Hs. reflexivity.
  - intros s1 Hs. rewrite Hrun, Hs.
    destruct s1 as [pvs start stop step n speed vmax nd nf tot tr].
    unfold set_trigger_mode, cleanup_PSO.
    eexists. split.
    + run. reflexivity.
    + run. flat. reflexivity.
Qed.

Lemma end_scan_witness :
  returned (end_scan ["os"] (Bench.base 0.1) Bench.char_value
              (fun path => (path, ""%string)) (Bench.scan 0.25 2.5)) = true /\
  last (trace (final (end_scan ["os"] (Bench.base 0.1) Bench.char_value
                        (fun path => (path, ""%string))
                        (Bench.scan 0.25 2.5)))) (Sleep 0)
    = Put "PSOAsyn" (VStr "PSOCONTROL X OFF") true None.
Proof.
  destruct (end_scan_restores_in_order ["os"] (Bench.base 0.1)
              Bench.char_value (fun path => (path, ""%string))
              (Bench.scan 0.25 2.5) eq_refl) as (_ & H).
  destruct (H _ eq_refl) as (s2 & Hrun & Ht).
  rewrite Hrun. split; [ reflexivity | ].
  cbn [Bench.base move_sample_in super_end_scan bind ret final].
  rewrite Ht. vm_compute. reflexivity.
Defined.

(** ** What [program_PSO] does when it fails *)

(** No axis name makes the reset command read as the arming command. *)
Lemma reset_is_not_arm (a : string) :
  (a ++ " RESET")%string <> (a ++ " ARM")%string.
Proof.
  induction a as [| c a IH]; cbn.
  - discriminate.
  - intros E. injection E as E. exact (IH E).
Qed.

(** X11.  [program_PSO] arms the pulse generator only when it returns:
    whatever the namespace and the state, a call that returns has sent the
    arming command as its very last event, and a call that raises (a
    direction or an encoder input that is no integer, a spacing that is no
    number, [time] not bound) has not sent it at all. *)
Theorem program_PSO_arms_only_on_return :
  forall (injected : list string) (char_value : value -> string)
         (s : TomoScanPSO),
    let arm :=
      Put "PSOAsyn"
        (VStr ("PSOCONTROL " ++ char_value (epics_pvs s "PSOAxisName")
               ++ " ARM")) true (Some 10.0) in
    match program_PSO injected char_value s with
    | Ok _ s' => exists pre : list event, trace s' = trace s ++ pre ++ [arm]
    | Raise e s' =>
        (e = ValueError \/ e = TypeError \/ e = NameError "time") /\
        exists evs : list event,
          trace s' = trace s ++ evs /\
          forall w t, ~ In (Put "PSOAsyn"
                              (VStr ("PSOCONTROL "
                                     ++ char_value (epics_pvs s "PSOAxisName")
                                     ++ " ARM")) w t) evs
    end.
Proof.
  intros injected cv s arm. subst arm.
  destruct s as [pvs start stop step n speed vmax nd nf tot tr].
  unfold program_PSO, _compute_senses, sleep, global. run.
  destruct (int_of (pvs "RotationDirection")) as [d |]; run.
  2:{ split; [ auto | ]. eexists. split; [ reflexivity | ].
      intros w t [H | []]. discriminate H. }
  destruct (Py.int_of_string (cv (pvs "PSOEncoderInput"))) as [i |]; run.
  2:{ split; [ auto | ]. eexists. split; [ flat; reflexivity | ].
      intros w t Hin. cbn in Hin.
      repeat (destruct Hin as [Hin | Hin]; [ discriminate Hin | ]).
      contradiction. }
  destruct (bound injected "time") eqn:Ht; run.
  2:{ split; [ auto | ]. eexists. split; [ flat; reflexivity | ].
      intros w t Hin. cbn in Hin.
      repeat (destruct Hin as [Hin | Hin];
              [ try discriminate Hin; injection Hin as Hin;
                exact (reset_is_not_arm _ Hin) | ]).
      contradiction. }
  cbv beta iota delta [store]. names.
  destruct (num_of (pvs "EncoderPulsesPerStep")) as [spacing |] eqn:Hs; run.
  2:{ split; [ auto | ]. eexists. split; [ flat; reflexivity | ].
      intros w t Hin. cbn in Hin.
      repeat (destruct Hin as [Hin | Hin];
              [ try discriminate Hin; injection Hin as Hin;
                exact (reset_is_not_arm _ Hin) | ]).
      contradiction. }
  do 2 (cbv beta iota delta [store]; names; rewrite ?Hs; run).
  flat.
  match goal with
  | |- exists pre, _ ++ ?l = _ => exists (removelast l)
  end.
  cbn [removelast app]. reflexivity.
Qed.

(** ** The window and the trigger positions *)

(** [trunc] of a number that is an integer is that integer. *)
Lemma trunc_of_integer (x : Q) (z : Z) : x == inject_Z z -> Py.trunc x = z.
Proof.
  destruct x as [n d]. unfold Qeq, Py.trunc, inject_Z. cbn [Qnum Qden].
  intros E. rewrite Z.mul_1_r in E. subst n.
  apply Z.quot_mul. discriminate.
Qed.

(** [round] of half an integer is within half a unit of it. *)
Lemma round_of_half (k : Z) :
  (k - 1 <= 2 * Py.round (inject_Z k / 2) <= k + 1)%Z.
Proof.
  pose proof (round_nearest (inject_Z k / 2)) as H.
  apply Qabs_Qle_condition in H. destruct H as [Hlo Hhi].
  set (r := Py.round (inject_Z k / 2)) in *.
  assert (E : inject_Z k / 2 == inject_Z k * (1 # 2)) by field.
  rewrite E in Hlo, Hhi.
  assert (H1 : inject_Z (2 * r) <= inject_Z (k + 1)).
  { rewrite inject_Z_mult, inject_Z_plus.
    change (inject_Z 2) with 2. change (inject_Z 1) with 1. lra. }
  assert (H2 : inject_Z (k - 1) <= inject_Z (2 * r)).
  { unfold Z.sub. rewrite inject_Z_mult, inject_Z_plus, inject_Z_opp.
    change (inject_Z 2) with 2. change (inject_Z 1) with 1. lra. }
  rewrite <- Zle_Qle in H1, H2. lia.
Qed.

(** The window for a spacing that is an integer, in closed form. *)
Lemma programmed_window_of_integer (k n sense : Z) :
  programmed_window
    (window (range_start (inject_Z k) sense)
       (range_length (inject_Z k) n) sense)
  = let rs := (- Py.round (inject_Z k / 2) * sense)%Z in
    if (0 <? sense)%Z then ((rs - 5)%Z, (rs + k * n + 5)%Z)
    else ((rs - k * n - 5)%Z, (rs + 5)%Z).
Proof.
  unfold programmed_window, window, range_start, range_length. cbv zeta.
  set (rs := (- Py.round (inject_Z k / 2) * sense)%Z).
  destruct (0 <? sense)%Z; cbn [fst snd]; f_equal; apply trunc_of_integer.
  - unfold Z.sub. rewrite inject_Z_plus. reflexivity.
  - rewrite !inject_Z_plus, inject_Z_mult. reflexivity.
  - unfold Z.sub. rewrite !inject_Z_plus, !inject_Z_opp, inject_Z_mult.
    change (inject_Z 5) with 5. ring.
  - rewrite inject_Z_plus. reflexivity.
Qed.

(** X12.  Counted from the arming point in the direction [overall_sense],
    the encoder positions of the [num_angles] projections, [j * spacing] for
    [0 <= j < num_angles], all lie strictly inside the window of lines
    252-261, for a spacing that is a non-negative integer and either sense;
    and for a spacing of at least 12 counts the positions one spacing
    before the first and one spacing after the last lie strictly outside
    it. *)
Theorem window_holds_the_trigger_positions :
  forall k n sense j : Z,
    (0 <= k)%Z ->
    sense = 1%Z \/ sense = (-1)%Z ->
    (0 <= j < n)%Z ->
    let w := programmed_window
               (window (range_start (inject_Z k) sense)
                  (range_length (inject_Z k) n) sense) in
    (fst w < j * k * sense < snd w)%Z /\
    ((12 <= k)%Z ->
     ((-1) * k * sense < fst w \/ snd w < (-1) * k * sense)%Z /\
     (n * k * sense < fst w \/ snd w < n * k * sense)%Z).
Proof.
  intros k n sense j Hk Hs Hj w. subst w.
  rewrite programmed_window_of_integer. cbv zeta.
  pose proof (round_of_half k) as Hr.
  set (r := Py.round (inject_Z k / 2)) in *.
  assert (H0 : (0 <= j * k)%Z) by nia.
  assert (H1 : (j * k <= n * k - k)%Z) by nia.
  destruct Hs as [-> | ->]; cbn [Z.ltb Z.compare fst snd].
  - split; [ lia | ]. intros Hk'. split; [ left | right ]; lia.
  - split; [ lia | ]. intros Hk'. split; [ right | left ]; lia.
Qed.

Lemma window_holds_witness :
  let w := programmed_window
             (window (range_start 25 (-1)) (range_length 25 720) (-1)) in
  (fst w < 719 * 25 * -1 < snd w)%Z /\ (snd w < (-1) * 25 * -1)%Z.
Proof.
  destruct (window_holds_the_trigger_positions 25 720 (-1) 719
              ltac:(discriminate) (or_intror eq_refl) ltac:(lia))
    as (Hin & Hout).
  split; [ exact Hin | ]. vm_compute. reflexivity.
Defined.

(** ** The planner, called where [math] is bound *)

(** A positive corrected step comes from a non-zero pulses-per-rotation. *)
Lemma positive_step_has_pulses (step ppr : Q) :
  0 < corrected_step step ppr -> ~ ppr == 0.
Proof.
  intros H E.
  assert (Hc : corrected_step step ppr == 0).
  { assert (Hm : encoder_multiply ppr == 0).
    { apply Qeq_bool_iff. destruct (Qeq_bool (encoder_multiply ppr) 0) eqn:B;
        [ reflexivity | ].
      apply encoder_multiply_zero in B. contradiction. }
    unfold corrected_step, Qdiv.
    set (c := inject_Z (delta_encoder_counts step ppr)).
    rewrite Hm. change (/ 0) with 0. apply Qmult_0_r. }
  rewrite Hc in H. discriminate H.
Qed.

(** Planning again from a corrected step changes nothing. *)
Lemma recount (step ppr : Q) :
  ~ ppr == 0 ->
  delta_encoder_counts (corrected_step step ppr) ppr
    = delta_encoder_counts step ppr /\
  needs_warning (corrected_step step ppr) ppr = false /\
  corrected_step (corrected_step step ppr) ppr = corrected_step step ppr.
Proof.
  intros Hz.
  assert (Hm : ~ encoder_multiply ppr == 0).
  { apply Qeq_bool_neq. apply encoder_multiply_zero. exact Hz. }
  assert (E : corrected_step step ppr * encoder_multiply ppr
              == inject_Z (delta_encoder_counts step ppr)).
  { unfold corrected_step. field. exact Hm. }
  assert (R : delta_encoder_counts (corrected_step step ppr) ppr
              = delta_encoder_counts step ppr).
  { unfold delta_encoder_counts at 1. unfold raw_delta_encoder_counts.
    apply round_of_integer. exact E. }
  split; [ exact R | ]. split.
  - unfold needs_warning. rewrite R. apply ltb_ge.
    unfold raw_delta_encoder_counts. rewrite E.
    setoid_replace (inject_Z (delta_encoder_counts step ppr)
                    - inject_Z (delta_encoder_counts step ppr)) with 0 by ring.
    discriminate.
  - unfold corrected_step at 1. rewrite R. reflexivity.
Qed.

(** Where [math] is bound and the corrected step is positive, the planner
    returns the planned object. *)
Lemma planner_returns (injected : list string) (s : TomoScanPSO)
    (d : Z) (accl ppr : Q) :
  int_of (epics_pvs s "RotationDirection") = Some d ->
  num_of (epics_pvs s "RotationAccelTime") = Some accl ->
  num_of (epics_pvs s "PSOPulsesPerRotation") = Some ppr ->
  bound injected "math" = true ->
  0 < corrected_step (rotation_step s) ppr ->
  compute_positions_PSO injected s = Ok tt (planned ppr accl s).
Proof.
  intros Hd Ha Hp Hm Hpos.
  rewrite (planner_completes injected s d accl ppr Hd Ha Hp
             (positive_step_has_pulses _ _ Hpos) Hm).
  destruct (Qeq_bool (corrected_step (rotation_step s) ppr) 0) eqn:E;
    [ | reflexivity ].
  apply Qeq_bool_iff in E. rewrite E in Hpos. discriminate Hpos.
Qed.

(** With a positive step and at least two angles, the recomputed stop is on
    the same side of the start as the stop it replaces. *)
Lemma direction_is_kept (start stop step : Q) (n : Z) :
  0 < step -> (2 <= n)%Z ->
  user_direction_of start
    (start + inject_Z (n - 1) * step
             * inject_Z (user_direction_of start stop))
  = user_direction_of start stop.
Proof.
  intros Hpos Hn.
  assert (Hp : 0 < inject_Z (n - 1) * step).
  { apply Qmult_lt_0_compat; [ | exact Hpos ].
    change 0 with (inject_Z 0). rewrite <- Zlt_Qlt. lia. }
  set (p := inject_Z (n - 1) * step) in *.
  unfold user_direction_of.
  destruct (Py.ltb start stop) eqn:E.
  - change (inject_Z 1) with 1.
    assert (H : Py.ltb start (start + p * 1) = true) by (apply ltb_lt; lra).
    rewrite H. reflexivity.
  - change (inject_Z (-1)) with (-1).
    assert (H : Py.ltb start (start + p * -1) = false)
      by (apply ltb_ge; lra).
    rewrite H. reflexivity.
Qed.

(** X13.  Where [math] is bound and the corrected step is positive, the
    planner returns and leaves [rotation_start] as it was.  With at least
    two angles the recomputed [rotation_stop] lies on the same side of the
    start as the stop on entry, so the direction the programmer computes
    afterwards is the one the planner used.  With a single angle the
    recomputed stop is the start itself, and the direction computed
    afterwards is -1 whatever it was on entry. *)
Theorem planner_keeps_the_direction :
  forall (injected : list string) (s : TomoScanPSO) (d : Z) (accl ppr : Q),
    int_of (epics_pvs s "RotationDirection") = Some d ->
    num_of (epics_pvs s "RotationAccelTime") = Some accl ->
    num_of (epics_pvs s "PSOPulsesPerRotation") = Some ppr ->
    bound injected "math" = true ->
    0 < corrected_step (rotation_step s) ppr ->
    exists s' : TomoScanPSO,
      compute_positions_PSO injected s = Ok tt s' /\
      rotation_start s' = rotation_start s /\
      int_of (epics_pvs s' "RotationDirection") = Some d /\
      ((2 <= num_angles s)%Z ->
       user_direction_of (rotation_start s') (rotation_stop s')
         = user_direction_of (rotation_start s) (rotation_stop s)) /\
      (num_angles s = 1%Z ->
       rotation_stop s' == rotation_start s /\
       user_direction_of (rotation_start s') (rotation_stop s') = (-1)%Z).
Proof.
  intros injected s d accl ppr Hd Ha Hp Hm Hpos.
  exists (planned ppr accl s).
  split; [ apply (planner_returns injected s d accl ppr Hd Ha Hp Hm Hpos) | ].
  split; [ reflexivity | ]. split; [ exact Hd | ].
  unfold planned. cbn [rotation_start rotation_stop].
  set (step' := corrected_step (rotation_step s) ppr) in *.
  split.
  - intros Hn. apply direction_is_kept; assumption.
  - intros Hn. rewrite Hn. change (inject_Z (1 - 1)) with 0.
    assert (E : rotation_start s
                + 0 * step'
                  * inject_Z (user_direction_of (rotation_start s)
                                (rotation_stop s))
                == rotation_start s) by ring.
    split; [ exact E | ].
    unfold user_direction_of at 1.
    assert (H : Py.ltb (rotation_start s)
                  (rotation_start s
                   + 0 * step'
                     * inject_Z (user_direction_of (rotation_start s)
                                   (rotation_stop s))) = false).
    { apply ltb_ge. rewrite E. apply Qle_refl. }
    rewrite H. reflexivity.
Qed.

Lemma planner_keeps_witness :
  exists s' : TomoScanPSO,
    compute_positions_PSO ["math"] (Bench.scan 0.25 2.5) = Ok tt s' /\
    user_direction_of (rotation_start s') (rotation_stop s') = 1%Z.
Proof.
  destruct (planner_keeps_the_direction ["math"] (Bench.scan 0.25 2.5)
              0%Z 0 36000 eq_refl eq_refl eq_refl eq_refl
              ltac:(vm_compute; reflexivity))
    as (s' & Hrun & _ & _ & Hdir & _).
  exists s'. split; [ exact Hrun | ].
  rewrite (Hdir ltac:(vm_compute; discriminate)). vm_compute. reflexivity.
Defined.

(** X14.  Where [math] is bound, the corrected step positive and there are
    at least two angles, a second call of the planner on the object the
    first one left returns too and changes neither [rotation_step], nor
    [rotation_stop], nor the encoder count, nor [startTaxi]; it logs no
    warning; and it leaves [endTaxi] at the recomputed [rotation_stop] plus
    the signed taxi distance. *)
Theorem planning_twice_is_consistent :
  forall (injected : list string) (s : TomoScanPSO) (d : Z) (accl ppr : Q),
    int_of (epics_pvs s "RotationDirection") = Some d ->
    num_of (epics_pvs s "RotationAccelTime") = Some accl ->
    num_of (epics_pvs s "PSOPulsesPerRotation") = Some ppr ->
    bound injected "math" = true ->
    0 < corrected_step (rotation_step s) ppr ->
    (2 <= num_angles s)%Z ->
    exists s' s'' : TomoScanPSO,
      compute_positions_PSO injected s = Ok tt s' /\
      compute_positions_PSO injected s' = Ok tt s'' /\
      rotation_step s'' = rotation_step s' /\
      rotation_stop s'' = rotation_stop s' /\
      epics_pvs s'' "EncoderPulsesPerStep"
        = epics_pvs s' "EncoderPulsesPerStep" /\
      epics_pvs s'' "startTaxi" = epics_pvs s' "startTaxi" /\
      (exists evs : list event,
         trace s'' = trace s' ++ evs /\
         forall fmt args, ~ In (Log WARNING fmt args) evs) /\
      epics_pvs s'' "endTaxi"
        = VFloat (rotation_stop s''
                  + taxi_dist (accel_dist accl (motor_speed s''))
                      (rotation_step s'')
                    * inject_Z (user_direction_of (rotation_start s'')
                                  (rotation_stop s''))).
Proof.
  intros injected s d accl ppr Hd Ha Hp Hm Hpos Hn.
  pose proof (positive_step_has_pulses _ _ Hpos) as Hz.
  destruct (recount (rotation_step s) ppr Hz) as (Rc & Rw & Rs).
  pose proof (direction_is_kept (rotation_start s) (rotation_stop s)
                (corrected_step (rotation_step s) ppr) (num_angles s)
                Hpos Hn) as Hdir.
  set (P := planned ppr accl s).
  assert (Hpos' : 0 < corrected_step (rotation_step P) ppr).
  { subst P. unfold planned. cbn [rotation_step]. rewrite Rs. exact Hpos. }
  exists P, (planned ppr accl P).
  split; [ apply (planner_returns injected s d accl ppr Hd Ha Hp Hm Hpos) | ].
  split; [ apply (planner_returns injected P d accl ppr Hd Ha Hp Hm Hpos') | ].
  assert (Estep : rotation_step (planned ppr accl P) = rotation_step P).
  { subst P. unfold planned. cbn [rotation_step]. exact Rs. }
  assert (Estop : rotation_stop (planned ppr accl P) = rotation_stop P).
  { subst P. unfold planned.
    cbn [rotation_stop rotation_start rotation_step num_angles].
    rewrite Rs, Hdir. reflexivity. }
  split; [ exact Estep | ]. split; [ exact Estop | ].
  split.
  { subst P. unfold planned, aligned, store.
    cbn [epics_pvs rotation_step]. names. rewrite Rc. reflexivity. }
  split.
  { subst P. unfold planned, aligned, store.
    cbn [epics_pvs rotation_step rotation_start rotation_stop motor_speed
         num_angles]. names. rewrite Rs, Hdir. reflexivity. }
  split.
  { eexists. split.
    - unfold planned at 1. cbn [trace]. unfold aligned at 1. cbn [trace].
      rewrite <- app_assoc. reflexivity.
    - intros fmt args Hin. apply in_app_or in Hin.
      destruct Hin as [Hin | Hin].
      + unfold alignment_events in Hin.
        replace (rotation_step P) with (corrected_step (rotation_step s) ppr)
          in Hin by reflexivity.
        rewrite Rw in Hin. cbn in Hin.
        repeat (destruct Hin as [Hin | Hin]; [ discriminate Hin | ]).
        contradiction.
      + cbn in Hin.
        repeat (destruct Hin as [Hin | Hin]; [ discriminate Hin | ]).
        contradiction. }
  rewrite Estep, Estop.
  subst P. unfold planned, aligned, store.
  cbn [epics_pvs rotation_step rotation_start rotation_stop motor_speed
       num_angles]. names. rewrite Rs, Hdir. reflexivity.
Qed.

Lemma planning_twice_witness :
  exists s' s'' : TomoScanPSO,
    compute_positions_PSO ["math"] (Bench.scan 0.25 2.5) = Ok tt s' /\
    compute_positions_PSO ["math"] s' = Ok tt s'' /\
    rotation_stop s'' == 179.75 /\
    exists e : Q, epics_pvs s'' "endTaxi" = VFloat e /\ e == 179.875.
Proof.
  destruct (planning_twice_is_consistent ["math"] (Bench.scan 0.25 2.5)
              0%Z 0 36000 eq_refl eq_refl eq_refl eq_refl
              ltac:(vm_compute; reflexivity) ltac:(vm_compute; discriminate))
    as (s' & s'' & H1 & H2 & _ & _ & _ & _ & _ & He).
  exists s', s''. split; [ exact H1 | ]. split; [ exact H2 | ].
  assert (E1 : s' = planned 36000 0 (Bench.scan 0.25 2.5)).
  { assert (H : compute_positions_PSO ["math"] (Bench.scan 0.25 2.5)
                = Ok tt (planned 36000 0 (Bench.scan 0.25 2.5))).
    { apply (planner_returns ["math"] (Bench.scan 0.25 2.5) 0%Z 0 36000);
        try reflexivity. }
    rewrite H in H1. injection H1 as H1. symmetry. exact H1. }
  assert (E2 : s'' = planned 36000 0 s').
  { assert (H : compute_positions_PSO ["math"] s' = Ok tt (planned 36000 0 s')).
    { subst s'.
      apply (planner_returns ["math"] _ 0%Z 0 36000); try reflexivity. }
    rewrite H in H2. injection H2 as H2. symmetry. exact H2. }
  split.
  - rewrite E2, E1. vm_compute. reflexivity.
  - eexists. split; [ exact He | ]. rewrite E2, E1. vm_compute. reflexivity.
Defined.

(** ** What [set_trigger_mode] and [cleanup_PSO] leave alone *)

(** X15.  [set_trigger_mode] changes no attribute of the object and no
    control point besides the nine camera ones it may write; and calling it
    a second time with the same arguments leaves every control point as the
    first call left it. *)
Theorem set_trigger_mode_touches_only_the_camera :
  forall (char_value : value -> string) (trigger_mode : string)
         (num_images : Z) (s : TomoScanPSO),
  exists s' s'' : TomoScanPSO,
    set_trigger_mode char_value trigger_mode num_images s = Ok tt s' /\
    set_trigger_mode char_value trigger_mode num_images s' = Ok tt s'' /\
    (rotation_start s' = rotation_start s /\
     rotation_stop s' = rotation_stop s /\
     rotation_step s' = rotation_step s /\
     num_angles s' = num_angles s /\
     motor_speed s' = motor_speed s /\
     max_rotation_speed s' = max_rotation_speed s /\
     num_dark_fields s' = num_dark_fields s /\
     num_flat_fields s' = num_flat_fields s /\
     total_images s' = total_images s) /\
    (forall name : string,
       ~ In name [ "CamAcquire"; "CamImageMode"; "CamTriggerMode";
                   "CamNumImages"; "CamTriggerSource"; "CamTriggerOverlap";
                   "CamExposureMode"; "CamArrayCallbacks";
                   "CamFrameRateEnable" ] ->
       epics_pvs s' name = epics_pvs s name) /\
    (forall name : string, epics_pvs s'' name = epics_pvs s' name).
Proof.
  intros cv mode n s.
  destruct s as [pvs start stop step na speed vmax nd nf tot tr].
  unfold set_trigger_mode.
  destruct (String.eqb mode "FreeRun") eqn:E1;
    [ | destruct (String.eqb mode "Internal") eqn:E2 ];
    run; rewrite ?E1, ?E2; run;
    do 2 eexists;
    (split; [ reflexivity | ]); (split; [ reflexivity | ]);
    (split; [ repeat split | ]);
    (split;
     [ intros name Hn; run; unfold store;
       repeat match goal with
              | |- context [String.eqb name ?k] =>
                  let B := fresh "B" in
                  destruct (String.eqb name k) eqn:B;
                  [ apply String.eqb_eq in B; exfalso; apply Hn; subst name;
                    cbn; tauto | ]
              end;
       reflexivity
     | intros name; run; unfold store;
       repeat match goal with
              | |- context [String.eqb ?a ?b] =>
                  lazymatch a with
                  | name => fail
                  | _ =>
                      let r := eval vm_compute in (String.eqb a b) in
                      change (String.eqb a b) with r
                  end
              end;
       cbv iota;
       repeat match goal with
              | |- context [String.eqb name ?k] =>
                  destruct (String.eqb name k)
              end;
       reflexivity ]).
Qed.

(** ** Dark and flat fields *)

(** Under the imports of lines 9-10, [collect_static_frames] leaves the
    camera acquiring in internal mode when it stops at line 79. *)
Lemma static_frames_left_acquiring (base : TomoScan)
    (char_value : value -> string) (num_frames : Z) (s : TomoScanPSO) :
  exists s' : TomoScanPSO,
    collect_static_frames [] base char_value num_frames s =
      Raise (NameError "time") s' /\
    trace s' =
      trace s
      ++ [ Log INFO "collect static frames: %d" [AInt num_frames];
           Log INFO "set trigger mode: %s" [AStr "Internal"];
           Put "CamAcquire" (VStr "Done") true None;
           Put "CamTriggerMode" (VStr "Off") true None;
           Put "CamImageMode" (VStr "Multiple") false None;
           Put "CamNumImages" (VInt num_frames) true None;
           Put "CamAcquire" (VStr "Acquire") false None ] /\
    epics_pvs s' "CamAcquire" = VStr "Acquire" /\
    epics_pvs s' "CamNumImages" = VInt num_frames.
Proof.
  destruct s as [pvs start stop step n speed vmax nd nf tot tr].
  unfold collect_static_frames, set_trigger_mode, sleep, global.
  eexists. split; [ reflexivity | ]. run. flat.
  split; [ reflexivity | ]. split; reflexivity.
Qed.

(** X16.  As the module stands, neither [collect_dark_fields] nor
    [collect_flat_fields] ever returns.  When the base method returns, the
    call switches the camera to internal triggering with the number of
    frames held by [num_dark_fields] (or [num_flat_fields]) after the base
    call, starts the acquisition, and then raises the [NameError] of [time]
    at line 79: the camera is left acquiring and nothing waits for it. *)
Theorem dark_and_flat_fields_stop :
  forall (base : TomoScan) (char_value : value -> string) (s : TomoScanPSO),
    returned (collect_dark_fields [] base char_value s) = false /\
    returned (collect_flat_fields [] base char_value s) = false /\
    (forall s1 : TomoScanPSO,
       super_collect_dark_fields base
         (with_trace (trace s ++ [Log INFO "collect dark fields" []]) s)
         = Ok tt s1 ->
       exists s' : TomoScanPSO,
         collect_dark_fields [] base char_value s
           = Raise (NameError "time") s' /\
         epics_pvs s' "CamAcquire" = VStr "Acquire" /\
         epics_pvs s' "CamNumImages" = VInt (num_dark_fields s1) /\
         forall seconds,
           In (Sleep seconds) (trace s') -> In (Sleep seconds) (trace s1)) /\
    (forall s1 : TomoScanPSO,
       super_collect_flat_fields base
         (with_trace (trace s ++ [Log INFO "collect flat fields" []]) s)
         = Ok tt s1 ->
       exists s' : TomoScanPSO,
         collect_flat_fields [] base char_value s
           = Raise (NameError "time") s' /\
         epics_pvs s' "CamAcquire" = VStr "Acquire" /\
         epics_pvs s' "CamNumImages" = VInt (num_flat_fields s1) /\
         forall seconds,
           In (Sleep seconds) (trace s') -> In (Sleep seconds) (trace s1)).
Proof.
  intros base cv s.
  assert (Hsleep : forall (n : Z) (s1 s' : TomoScanPSO),
            trace s' =
              trace s1
              ++ [ Log INFO "collect static frames: %d" [AInt n];
                   Log INFO "set trigger mode: %s" [AStr "Internal"];
                   Put "CamAcquire" (VStr "Done") true None;
                   Put "CamTriggerMode" (VStr "Off") true None;
                   Put "CamImageMode" (VStr "Multiple") false None;
                   Put "CamNumImages" (VInt n) true None;
                   Put "CamAcquire" (VStr "Acquire") false None ] ->
            forall seconds,
              In (Sleep seconds) (trace s') -> In (Sleep seconds) (trace s1)).
  { intros n s1 s' Ht seconds Hin. rewrite Ht in Hin.
    apply in_app_or in Hin.
    destruct Hin as [Hin | Hin]; [ exact Hin | ].
    cbn in Hin.
    repeat (destruct Hin as [Hin | Hin]; [ discriminate Hin | ]).
    contradiction. }
  split; [ | split; [ | split ] ].
  - unfold collect_dark_fields. mrun.
    destruct (super_collect_dark_fields base _) as [[] s1 | e s1];
      [ | reflexivity ].
    destruct (static_frames_left_acquiring base cv (num_dark_fields s1) s1)
      as (s' & Hrun & _).
    rewrite Hrun. reflexivity.
  - unfold collect_flat_fields. mrun.
    destruct (super_collect_flat_fields base _) as [[] s1 | e s1];
      [ | reflexivity ].
    destruct (static_frames_left_acquiring base cv (num_flat_fields s1) s1)
      as (s' & Hrun & _).
    rewrite Hrun. reflexivity.
  - intros s1 H1.
    destruct (static_frames_left_acquiring base cv (num_dark_fields s1) s1)
      as (s' & Hrun & Ht & Ha & Hn).
    exists s'. unfold collect_dark_fields. mrun. rewrite H1. mrun.
    rewrite Hrun. split; [ reflexivity | ].
    split; [ exact Ha | ]. split; [ exact Hn | ].
    exact (Hsleep _ _ _ Ht).
  - intros s1 H1.
    destruct (static_frames_left_acquiring base cv (num_flat_fields s1) s1)
      as (s' & Hrun & Ht & Ha & Hn).
    exists s'. unfold collect_flat_fields. mrun. rewrite H1. mrun.
    rewrite Hrun. split; [ reflexivity | ].
    split; [ exact Ha | ]. split; [ exact Hn | ].
    exact (Hsleep _ _ _ Ht).
Qed.

(** X17.  In a namespace that binds [time], [collect_static_frames]
    switches the camera to internal triggering with the requested count,
    starts the acquisition, sleeps 0.5 s, and then waits for the camera
    for the frame time times the number of frames plus 5 seconds; an
    exception of that wait (a timeout) is the exception of the call, in
    the state where the wait raised it. *)
Theorem static_frames_wait_budget :
  forall (injected : list string) (base : TomoScan)
         (char_value : value -> string) (num_frames : Z) (s : TomoScanPSO),
    bound injected "time" = true ->
    exists s1 : TomoScanPSO,
      trace s1 =
        trace s
        ++ [ Log INFO "collect static frames: %d" [AInt num_frames];
             Log INFO "set trigger mode: %s" [AStr "Internal"];
             Put "CamAcquire" (VStr "Done") true None;
             Put "CamTriggerMode" (VStr "Off") true None;
             Put "CamImageMode" (VStr "Multiple") false None;
             Put "CamNumImages" (VInt num_frames) true None;
             Put "CamAcquire" (VStr "Acquire") false None;
             Sleep 0.5 ] /\
      collect_static_frames injected base char_value num_frames s =
        (frame_time <- compute_frame_time base ;;
         wait_camera_done base (frame_time * inject_Z num_frames + 5.0)) s1 /\
      (forall (frame_time : Q) (s2 s3 : TomoScanPSO) (e : exn),
         compute_frame_time base s1 = Ok frame_time s2 ->
         wait_camera_done base (frame_time * inject_Z num_frames + 5.0) s2
           = Raise e s3 ->
         collect_static_frames injected base char_value num_frames s
           = Raise e s3).
Proof.
  intros injected base cv n s Ht.
  destruct s as [pvs start stop step na speed vmax nd nf tot tr].
  assert (Hrun : exists s1 : TomoScanPSO,
            trace s1 =
              tr
              ++ [ Log INFO "collect static frames: %d" [AInt n];
                   Log INFO "set trigger mode: %s" [AStr "Internal"];
                   Put "CamAcquire" (VStr "Done") true None;
                   Put "CamTriggerMode" (VStr "Off") true None;
                   Put "CamImageMode" (VStr "Multiple") false None;
                   Put "CamNumImages" (VInt n) true None;
                   Put "CamAcquire" (VStr "Acquire") false None;
                   Sleep 0.5 ] /\
            collect_static_frames injected base cv n
              (mkTomoScanPSO pvs start stop step na speed vmax nd nf tot tr) =
              (frame_time <- compute_frame_time base ;;
               wait_camera_done base (frame_time * inject_Z n + 5.0)) s1).
  { unfold collect_static_frames, set_trigger_mode, sleep, global.
    rewrite Ht. eexists. split; [ | run; reflexivity ].
    run. flat. reflexivity. }
  destruct Hrun as (s1 & Htr & Hrun).
  exists s1. split; [ exact Htr | ]. split; [ exact Hrun | ].
  intros ft s2 s3 e Hf Hw. rewrite Hrun. mrun. rewrite Hf. exact Hw.
Qed.

Lemma static_frames_witness :
  returned (collect_static_frames ["time"] (Bench.base 0.1) Bench.char_value
              20 (Bench.scan 0.25 2.5)) = true /\
  last (trace (final (collect_static_frames ["time"] (Bench.base 0.1)
                        Bench.char_value 20 (Bench.scan 0.25 2.5))))
    (Sleep 0) = Sleep 0.5.
Proof.
  destruct (static_frames_wait_budget ["time"] (Bench.base 0.1)
              Bench.char_value 20 (Bench.scan 0.25 2.5) eq_refl)
    as (s1 & Ht & Hrun & _).
  rewrite Hrun.
  cbn [Bench.base compute_frame_time wait_camera_done bind ret returned
       final].
  split; [ reflexivity | ]. rewrite Ht. vm_compute. reflexivity.
Defined.

(** ** [begin_scan] where [time] is bound *)

(** X18.  In a namespace that binds [time], once the base setup, the frame
    time (not zero) and the inherited [compute_positions] have returned,
    [begin_scan] is [program_PSO] followed by the two file-writer writes:
    if [program_PSO] raises, [begin_scan] raises the same exception in the
    same state and the file writer is told nothing; if it returns, the
    writes of [FPNumCapture] (blocking, the total image count) and of
    [FPCapture] are the last two events of the call. *)
Theorem capture_starts_after_arming :
  forall (injected : list string) (base : TomoScan)
         (char_value : value -> string)
         (s s1 s2 s3 : TomoScanPSO) (time_per_angle : Q),
    bound injected "time" = true ->
    super_begin_scan base
      (with_trace (trace s ++ [Log INFO "begin scan" []]) s) = Ok tt s1 ->
    compute_frame_time base s1 = Ok time_per_angle s2 ->
    ~ time_per_angle == 0 ->
    compute_positions base
      (with_trace (trace s2 ++ [Sleep 0.1])
         (with_motor_speed (rotation_step s2 / time_per_angle) s2))
      = Ok tt s3 ->
    match program_PSO injected char_value s3 with
    | Ok _ s4 =>
        exists s5 : TomoScanPSO,
          begin_scan injected base char_value s = Ok tt s5 /\
          trace s5 =
            trace s4
            ++ [ Put "FPNumCapture" (VInt (total_images s4)) true None;
                 Put "FPCapture" (VStr "Capture") false None ]
    | Raise e s4 => begin_scan injected base char_value s = Raise e s4
    end.
Proof.
  intros injected base cv s s1 s2 s3 tpa Ht H1 H2 Hz H3.
  assert (E : Qeq_bool tpa 0 = false).
  { destruct (Qeq_bool tpa 0) eqn:E; [ | reflexivity ].
    apply Qeq_bool_iff in E. contradiction. }
  assert (Hrun : begin_scan injected base cv s =
                 (program_PSO injected cv ;;
                  total <- gets total_images ;;
                  pv_put "FPNumCapture" (VInt total) true None ;;
                  pv_put "FPCapture" (VStr "Capture") false None) s3).
  { unfold begin_scan, py_div, sleep, global. rewrite Ht.
    mrun. rewrite H1. mrun. rewrite H2. mrun. rewrite E. mrun.
    destruct s2 as [pvs start stop step na speed vmax nd nf tot tr].
    cbn [with_motor_speed with_trace trace epics_pvs rotation_start
         rotation_stop rotation_step num_angles motor_speed
         max_rotation_speed num_dark_fields num_flat_fields total_images]
      in H3 |- *.
    rewrite H3. reflexivity. }
  rewrite Hrun. mrun.
  destruct (program_PSO injected cv s3) as [[] s4 | e s4]; [ | reflexivity ].
  destruct s4 as [pvs start stop step na speed vmax nd nf tot tr].
  eexists. split; [ reflexivity | ]. run. flat. reflexivity.
Qed.

Lemma capture_starts_witness :
  returned (begin_scan ["time"] (Bench.base 0.1) Bench.char_value
              (Bench.scan 0.25 0)) = true /\
  last (trace (final (begin_scan ["time"] (Bench.base 0.1) Bench.char_value
                        (Bench.scan 0.25 0)))) (Sleep 0)
    = Put "FPCapture" (VStr "Capture") false None.
Proof.
  pose proof (capture_starts_after_arming ["time"] (Bench.base 0.1)
                Bench.char_value (Bench.scan 0.25 0) _ _ _ 0.1
                eq_refl eq_refl eq_refl
                ltac:(intro H; vm_compute in H; discriminate H)
                eq_refl) as H.
  split; vm_compute; reflexivity.
Defined.

(** ** What [program_PSO] and [cleanup_PSO] leave alone *)

(** X19.  Whether it returns or raises, in any namespace, [program_PSO]
    changes no attribute of the object and no control point besides
    [RotationSpeed], [Rotation] and [PSOAsyn]; and when the direction and
    the encoder input read as integers it leaves [Rotation] at
    [rotation_start] and [RotationSpeed] at [motor_speed], not at the
    maximum it used for the move.  [cleanup_PSO] changes no attribute and
    no control point besides [PSOAsyn]. *)
Theorem program_and_cleanup_touch_only_the_stage :
  forall (injected : list string) (char_value : value -> string)
         (s : TomoScanPSO),
    let s' := final (program_PSO injected char_value s) in
    let c := final (cleanup_PSO char_value s) in
    (rotation_start s' = rotation_start s /\
     rotation_stop s' = rotation_stop s /\
     rotation_step s' = rotation_step s /\
     num_angles s' = num_angles s /\
     motor_speed s' = motor_speed s /\
     max_rotation_speed s' = max_rotation_speed s /\
     total_images s' = total_images s) /\
    (forall name : string,
       ~ In name ["RotationSpeed"; "Rotation"; "PSOAsyn"] ->
       epics_pvs s' name = epics_pvs s name) /\
    (forall d i : Z,
       int_of (epics_pvs s "RotationDirection") = Some d ->
       Py.int_of_string (char_value (epics_pvs s "PSOEncoderInput")) = Some i ->
       epics_pvs s' "Rotation" = VFloat (rotation_start s) /\
       epics_pvs s' "RotationSpeed" = VFloat (motor_speed s)) /\
    (rotation_start c = rotation_start s /\
     rotation_stop c = rotation_stop s /\
     rotation_step c = rotation_step s /\
     num_angles c = num_angles s /\
     motor_speed c = motor_speed s /\
     max_rotation_speed c = max_rotation_speed s /\
     total_images c = total_images s) /\
    (forall name : string,
       name <> "PSOAsyn" -> epics_pvs c name = epics_pvs s name).
Proof.
  intros injected cv s s' c. subst s' c.
  destruct s as [pvs start stop step n speed vmax nd nf tot tr].
  assert (Hc : forall name : string,
            name <> "PSOAsyn" ->
            epics_pvs (final (cleanup_PSO cv
                                (mkTomoScanPSO pvs start stop step n speed
                                   vmax nd nf tot tr))) name = pvs name).
  { intros name Hn. unfold cleanup_PSO. run. unfold store.
    apply String.eqb_neq in Hn. rewrite Hn. reflexivity. }
  cbn [epics_pvs rotation_start rotation_stop rotation_step num_angles
       motor_speed max_rotation_speed total_images].
  split; [ | split; [ | split; [ | split ] ] ].
  5:{ exact Hc. }
  4:{ unfold cleanup_PSO. run. repeat split. }
  all: unfold program_PSO, _compute_senses, sleep, global; run;
    destruct (int_of (pvs "RotationDirection")) as [d |]; run;
    [ destruct (Py.int_of_string (cv (pvs "PSOEncoderInput"))) as [i |]; run;
      [ destruct (bound injected "time") eqn:Ht; run;
        [ cbv beta iota delta [store]; names;
          destruct (num_of (pvs "EncoderPulsesPerStep")) as [spacing |] eqn:Hs;
          run;
          [ do 2 (cbv beta iota delta [store]; names; rewrite ?Hs; run) | ]
        | ]
      | ]
    | ].
  all: try (repeat split; fail).
  all: try (intros name Hn; unfold store;
            repeat match goal with
                   | |- context [String.eqb name ?k] =>
                       let B := fresh "B" in
                       destruct (String.eqb name k) eqn:B;
                       [ apply String.eqb_eq in B; exfalso; apply Hn;
                         subst name; cbn; tauto | ]
                   end;
            reflexivity).
  all: intros d' i' Hd Hi; try discriminate; split; reflexivity.
Qed.

(** ** Edge cases of the planner *)

(** [round] of a number below one half in absolute value is zero. *)
Lemma round_of_small (x : Q) : Qabs x < 1 # 2 -> Py.round x = 0%Z.
Proof.
  intros H. pose proof (round_nearest x) as Hr.
  apply Qabs_Qle_condition in Hr. destruct Hr as [Hlo Hhi].
  apply Qabs_Qlt_condition in H. destruct H as [Hx1 Hx2].
  set (r := Py.round x) in *.
  assert (H1 : inject_Z r < inject_Z 1) by (change (inject_Z 1) with 1; lra).
  assert (H2 : inject_Z (-1) < inject_Z r)
    by (change (inject_Z (-1)) with (-1); lra).
  rewrite <- Zlt_Qlt in H1, H2. lia.
Qed.

(** X20.  Where [math] is bound, a step of less than half an encoder count
    (a zero step included) makes the planner raise [ZeroDivisionError] at
    the division of line 319, after it has written a count of 0 to
    [EncoderPulsesPerStep] and a step of 0 to [RotationStep] and to the
    attribute; [startTaxi] and [endTaxi] are left as they were. *)
Theorem tiny_step_stops_the_planner :
  forall (injected : list string) (s : TomoScanPSO) (d : Z) (accl ppr : Q),
    int_of (epics_pvs s "RotationDirection") = Some d ->
    num_of (epics_pvs s "RotationAccelTime") = Some accl ->
    num_of (epics_pvs s "PSOPulsesPerRotation") = Some ppr ->
    ~ ppr == 0 ->
    bound injected "math" = true ->
    Qabs (rotation_step s * (ppr / 360)) < 1 # 2 ->
    exists s' : TomoScanPSO,
      compute_positions_PSO injected s = Raise ZeroDivisionError s' /\
      rotation_step s' == 0 /\
      epics_pvs s' "EncoderPulsesPerStep" = VInt 0 /\
      (exists q : Q, epics_pvs s' "RotationStep" = VFloat q /\ q == 0) /\
      epics_pvs s' "startTaxi" = epics_pvs s "startTaxi" /\
      epics_pvs s' "endTaxi" = epics_pvs s "endTaxi".
Proof.
  intros injected s d accl ppr Hd Ha Hp Hz Hm Hsmall.
  assert (Hc : delta_encoder_counts (rotation_step s) ppr = 0%Z)
    by (apply round_of_small; exact Hsmall).
  assert (Hs : corrected_step (rotation_step s) ppr == 0).
  { unfold corrected_step. rewrite Hc. unfold Qdiv.
    change (inject_Z 0) with 0. apply Qmult_0_l. }
  exists (aligned ppr s).
  rewrite (planner_completes injected s d accl ppr Hd Ha Hp Hz Hm).
  apply Qeq_bool_iff in Hs. rewrite Hs.
  split; [ reflexivity | ].
  apply Qeq_bool_iff in Hs.
  unfold aligned. cbn [rotation_step epics_pvs]. unfold store. names.
  split; [ exact Hs | ]. split; [ rewrite Hc; reflexivity | ].
  split; [ eexists; split; [ reflexivity | exact Hs ] | ].
  split; reflexivity.
Qed.

Lemma tiny_step_witness :
  exists s' : TomoScanPSO,
    compute_positions_PSO ["math"] (Bench.scan 0.001 2.5)
      = Raise ZeroDivisionError s' /\
    epics_pvs s' "EncoderPulsesPerStep" = VInt 0.
Proof.
  destruct (tiny_step_stops_the_planner ["math"] (Bench.scan 0.001 2.5)
              0%Z 0 36000 eq_refl eq_refl eq_refl
              ltac:(intro H; vm_compute in H; discriminate H)
              eq_refl ltac:(vm_compute; reflexivity))
    as (s' & Hrun & _ & Hc & _).
  exists s'. split; [ exact Hrun | exact Hc ].
Defined.



(** A non-zero corrected step comes from a non-zero pulses-per-rotation. *)
Lemma nonzero_step_has_pulses (step ppr : Q) :
  ~ corrected_step step ppr == 0 -> ~ ppr == 0.
Proof.
  intros H E. apply H.
  assert (Hm : encoder_multiply ppr == 0).
  { apply Qeq_bool_iff. destruct (Qeq_bool (encoder_multiply ppr) 0) eqn:B;
      [ reflexivity | ].
    apply encoder_multiply_zero in B. contradiction. }
  unfold corrected_step, Qdiv.
  set (c := inject_Z (delta_encoder_counts step ppr)).
  rewrite Hm. change (/ 0) with 0. apply Qmult_0_r.
Qed.

(** X22.  Where [math] is bound, a negative corrected step with at least
    two angles makes the planner return with the recomputed [rotation_stop]
    on the other side of [rotation_start] than the stop of entry: the
    direction computed afterwards is the opposite of the one the planner
    used. *)
Theorem negative_step_reverses_the_direction :
  forall (injected : list string) (s : TomoScanPSO) (d : Z) (accl ppr : Q),
    int_of (epics_pvs s "RotationDirection") = Some d ->
    num_of (epics_pvs s "RotationAccelTime") = Some accl ->
    num_of (epics_pvs s "PSOPulsesPerRotation") = Some ppr ->
    bound injected "math" = true ->
    corrected_step (rotation_step s) ppr < 0 ->
    (2 <= num_angles s)%Z ->
    exists s' : TomoScanPSO,
      compute_positions_PSO injected s = Ok tt s' /\
      rotation_start s' = rotation_start s /\
      user_direction_of (rotation_start s') (rotation_stop s')
        = (- user_direction_of (rotation_start s) (rotation_stop s))%Z.
Proof.
  intros injected s d accl ppr Hd Ha Hp Hm Hneg Hn.
  assert (Hnz : ~ corrected_step (rotation_step s) ppr == 0).
  { intros E. rewrite E in Hneg. discriminate Hneg. }
  exists (planned ppr accl s). split.
  - rewrite (planner_completes injected s d accl ppr Hd Ha Hp
               (nonzero_step_has_pulses _ _ Hnz) Hm).
    destruct (Qeq_bool (corrected_step (rotation_step s) ppr) 0) eqn:E;
      [ | reflexivity ].
    apply Qeq_bool_iff in E. contradiction.
  - split; [ reflexivity | ].
    unfold planned. cbn [rotation_start rotation_stop].
    set (step' := corrected_step (rotation_step s) ppr) in *.
    assert (Hp' : inject_Z (num_angles s - 1) * step' < 0).
    { assert (H1 : 1 <= inject_Z (num_angles s - 1)).
      { change 1 with (inject_Z 1). rewrite <- Zle_Qle. lia. }
      assert (H2 : inject_Z (num_angles s - 1) * step' <= 1 * step').
      { setoid_replace (inject_Z (num_angles s - 1) * step')
          with (- (inject_Z (num_angles s - 1) * - step')) by ring.
        setoid_replace (1 * step') with (- (1 * - step')) by ring.
        apply Qopp_le_compat.
        apply Qmult_le_compat_r; [ exact H1 | lra ]. }
      lra. }
    set (p := inject_Z (num_angles s - 1) * step') in *.
    unfold user_direction_of.
    destruct (Py.ltb (rotation_start s) (rotation_stop s)) eqn:E.
    + change (inject_Z 1) with 1.
      assert (H : Py.ltb (rotation_start s) (rotation_start s + p * 1)
                  = false) by (apply ltb_ge; lra).
      rewrite H. reflexivity.
    + change (inject_Z (-1)) with (-1).
      assert (H : Py.ltb (rotation_start s) (rotation_start s + p * -1)
                  = true) by (apply ltb_lt; lra).
      rewrite H. reflexivity.
Qed.

Lemma negative_step_witness :
  exists s' : TomoScanPSO,
    compute_positions_PSO ["math"] (Bench.scan (-0.25) 2.5) = Ok tt s' /\
    user_direction_of (rotation_start s') (rotation_stop s') = (-1)%Z.
Proof.
  destruct (negative_step_reverses_the_direction ["math"]
              (Bench.scan (-0.25) 2.5) 0%Z 0 36000
              eq_refl eq_refl eq_refl eq_refl
              ltac:(vm_compute; reflexivity) ltac:(vm_compute; discriminate))
    as (s' & Hrun & _ & Hdir).
  exists s'. split; [ exact Hrun | ]. rewrite Hdir. vm_compute. reflexivity.
Defined.

(** ** The planner followed by the programmer *)

(** The last element of a list that ends with a non-empty one. *)
Lemma last_of_app (A : Type) (l1 : list A) (a : A) (l2 : list A) (d : A) :
  last (l1 ++ a :: l2) d = last (a :: l2) d.
Proof.
  induction l1 as [| b l1 IH]; [ reflexivity | ].
  cbn [app]. rewrite <- IH.
  destruct l1; reflexivity.
Qed.

(** Where [time] is bound and its inputs read as numbers, [program_PSO]
    returns, and these are the commands for the spacing and the window. *)
Lemma program_PSO_commands (injected : list string)
    (char_value : value -> string) (s : TomoScanPSO) (d i : Z)
    (spacing : Q) :
  bound injected "time" = true ->
  int_of (epics_pvs s "RotationDirection") = Some d ->
  Py.int_of_string (char_value (epics_pvs s "PSOEncoderInput")) = Some i ->
  num_of (epics_pvs s "EncoderPulsesPerStep") = Some spacing ->
  exists s' : TomoScanPSO,
    program_PSO injected char_value s = Ok tt s' /\
    In (Put "PSOAsyn"
          (VStr ("PSODISTANCE " ++ char_value (epics_pvs s "PSOAxisName")
                 ++ " FIXED " ++ Py.fmt_d (Py.trunc spacing)))
          true (Some 10.0)) (trace s') /\
    In (Put "PSOAsyn"
          (VStr ("PSOWINDOW " ++ char_value (epics_pvs s "PSOAxisName")
                 ++ " 1 RANGE "
                 ++ Py.fmt_d
                      (fst (programmed_window
                              (window
                                 (range_start spacing
                                    (user_direction_of (rotation_start s)
                                       (rotation_stop s)
                                     * (1 - d * 2) * -1))
                                 (range_length spacing (num_angles s))
                                 (user_direction_of (rotation_start s)
                                    (rotation_stop s)
                                  * (1 - d * 2) * -1))))
                 ++ ","
                 ++ Py.fmt_d
                      (snd (programmed_window
                              (window
                                 (range_start spacing
                                    (user_direction_of (rotation_start s)
                                       (rotation_stop s)
                                     * (1 - d * 2) * -1))
                                 (range_length spacing (num_angles s))
                                 (user_direction_of (rotation_start s)
                                    (rotation_stop s)
                                  * (1 - d * 2) * -1))))))
          true (Some 10.0)) (trace s') /\
    last (trace s') (Sleep 0)
      = Put "PSOAsyn"
          (VStr ("PSOCONTROL " ++ char_value (epics_pvs s "PSOAxisName")
                 ++ " ARM")) true (Some 10.0).
Proof.
  intros Ht Hd Hi Hs.
  destruct s as [pvs start stop step n speed vmax nd nf tot tr].
  cbn [epics_pvs rotation_start rotation_stop num_angles motor_speed
       max_rotation_speed trace] in *.
  unfold program_PSO, _compute_senses, sleep, global.
  run. rewrite Hd. run. rewrite Hi. run. rewrite Ht. run.
  do 3 (cbv beta iota delta [store]; names; rewrite ?Hs; run).
  eexists. split; [ reflexivity | ]. flat.
  split; [ | split ].
  - apply in_or_app. right. cbn. do 17 right. left. reflexivity.
  - apply in_or_app. right. cbn. do 23 right. left. reflexivity.
  - rewrite last_of_app. reflexivity.
Qed.

(** X23.  In a namespace that binds [math] and [time], with a positive
    corrected step and at least two angles, the planner followed by the
    programmer both return, and the programmer works from what the planner
    left: the spacing command carries the planner's rounded encoder count,
    the range command carries the window computed from that count, the
    number of angles and the sense of the entry direction, and the arming
    command comes last. *)
Theorem plan_then_program :
  forall (injected : list string) (char_value : value -> string)
         (s : TomoScanPSO) (d i : Z) (accl ppr : Q),
    int_of (epics_pvs s "RotationDirection") = Some d ->
    num_of (epics_pvs s "RotationAccelTime") = Some accl ->
    num_of (epics_pvs s "PSOPulsesPerRotation") = Some ppr ->
    Py.int_of_string (char_value (epics_pvs s "PSOEncoderInput")) = Some i ->
    bound injected "math" = true ->
    bound injected "time" = true ->
    0 < corrected_step (rotation_step s) ppr ->
    (2 <= num_angles s)%Z ->
    let counts := delta_encoder_counts (rotation_step s) ppr in
    let axis := char_value (epics_pvs s "PSOAxisName") in
    let sense :=
      (user_direction_of (rotation_start s) (rotation_stop s)
       * (1 - d * 2) * -1)%Z in
    let w := programmed_window
               (window (range_start (inject_Z counts) sense)
                  (range_length (inject_Z counts) (num_angles s)) sense) in
    exists s' s'' : TomoScanPSO,
      compute_positions_PSO injected s = Ok tt s' /\
      program_PSO injected char_value s' = Ok tt s'' /\
      In (Put "PSOAsyn"
            (VStr ("PSODISTANCE " ++ axis ++ " FIXED " ++ Py.fmt_d counts))
            true (Some 10.0)) (trace s'') /\
      In (Put "PSOAsyn"
            (VStr ("PSOWINDOW " ++ axis ++ " 1 RANGE "
                   ++ Py.fmt_d (fst w) ++ "," ++ Py.fmt_d (snd w)))
            true (Some 10.0)) (trace s'') /\
      last (trace s'') (Sleep 0)
        = Put "PSOAsyn" (VStr ("PSOCONTROL " ++ axis ++ " ARM"))
            true (Some 10.0).
Proof.
  intros injected cv s d i accl ppr Hd Ha Hp Hi Hm Ht Hpos Hn
         counts axis sense w.
  subst w sense axis.
  set (P := planned ppr accl s).
  assert (Hdir : user_direction_of (rotation_start P) (rotation_stop P)
                 = user_direction_of (rotation_start s) (rotation_stop s)).
  { exact (direction_is_kept (rotation_start s) (rotation_stop s)
             (corrected_step (rotation_step s) ppr) (num_angles s)
             Hpos Hn). }
  destruct (program_PSO_commands injected cv P d i (inject_Z counts)
              Ht Hd Hi eq_refl)
    as (s'' & Hrun & Hdist & Hrange & Hlast).
  rewrite (trunc_of_integer (inject_Z counts) counts (Qeq_refl _)) in Hdist.
  rewrite Hdir in Hrange.
  exists P, s''.
  split; [ apply (planner_returns injected s d accl ppr Hd Ha Hp Hm Hpos) | ].
  split; [ exact Hrun | ].
  split; [ exact Hdist | ]. split; [ exact Hrange | exact Hlast ].
Qed.

Lemma plan_then_program_witness :
  exists s' s'' : TomoScanPSO,
    compute_positions_PSO ["math"; "time"] (Bench.scan 0.25 2.5) = Ok tt s' /\
    program_PSO ["math"; "time"] Bench.char_value s' = Ok tt s'' /\
    In (Put "PSOAsyn" (VStr "PSODISTANCE X FIXED 25") true (Some 10.0))
      (trace s'') /\
    In (Put "PSOAsyn" (VStr "PSOWINDOW X 1 RANGE -17993,17") true (Some 10.0))
      (trace s'').
Proof.
  destruct (plan_then_program ["math"; "time"] Bench.char_value
              (Bench.scan 0.25 2.5) 0%Z 3%Z 0 36000
              eq_refl eq_refl eq_refl eq_refl eq_refl eq_refl
              ltac:(vm_compute; reflexivity) ltac:(vm_compute; discriminate))
    as (s' & s'' & H1 & H2 & Hd & Hr & _).
  exists s', s''. split; [ exact H1 | ]. split; [ exact H2 | ].
  split; [ exact Hd | exact Hr ].
Defined.

(** ** The image count of [set_trigger_mode] *)

(** X9.  The [num_images] argument of [set_trigger_mode] matters in
    Internal mode only: for any other mode the call is the same whatever
    the argument.  The count the camera is left with is the argument in
    Internal mode, the attribute [num_angles] in the external mode, and the
    count it already had in FreeRun mode. *)
Theorem image_count_matters_in_internal_mode_only :
  forall (char_value : value -> string) (trigger_mode : string)
         (num_images : Z) (s : TomoScanPSO),
    (String.eqb trigger_mode "Internal" = false ->
     forall other : Z,
       set_trigger_mode char_value trigger_mode other s
       = set_trigger_mode char_value trigger_mode num_images s) /\
    epics_pvs (final (set_trigger_mode char_value trigger_mode num_images s))
      "CamNumImages"
    = if String.eqb trigger_mode "FreeRun" then epics_pvs s "CamNumImages"
      else if String.eqb trigger_mode "Internal" then VInt num_images
      else VInt (num_angles s).
Proof.
  intros cv mode n s.
  destruct s as [pvs start stop step na speed vmax nd nf tot tr].
  unfold set_trigger_mode. split.
  - intros Hi other. run. rewrite Hi.
    destruct (String.eqb mode "FreeRun"); reflexivity.
  - run.
    destruct (String.eqb mode "FreeRun");
      [ | destruct (String.eqb mode "Internal") ]; run; reflexivity.
Qed.
